(** * ai-career-coach: the two Gemini command-line scripts

    A shallow embedding of [scripts/check_gemini_key.py] (the Key Validator)
    and [scripts/gemini_generate.py] (the Prompt Runner), and the properties
    of their truncation helpers, outcome classification and fallback logic.

    Conventions of the embedding:
    - a Python [str] is a [string]; one [ascii] stands for one character
      (a code point below 256), so [len] is [String.length];
    - a Python [int] is a [Z];
    - what a script does to the outside world (lines printed to standard
      output, HTTP requests, SDK calls) is recorded, in order, in a trace of
      events; what the outside world answers is given by oracles passed to
      the script;
    - an uncaught exception ends the run: the interpreter prints a traceback
      and the process exits with status 1. *)

From Stdlib Require Import ZArith List String Ascii Bool Lia.
From Stdlib Require Import Numbers.DecimalString.
Import ListNotations.

Set Warnings "-register-all".

Local Open Scope list_scope.
Local Open Scope string_scope.
Local Open Scope Z_scope.

(** ** Python strings *)

(** [len(s)] *)
Definition len (s : string) : Z := Z.of_nat (String.length s).

(** The double quote, to write texts that hold one. *)
Definition dq : string := String "034"%char EmptyString.

(** [s[:n]]: the first [n] characters, counted from the end when [n] is
    negative. *)
Definition slice_to (s : string) (n : Z) : string :=
  if 0 <=? n then substring 0 (Z.to_nat n) s
  else substring 0 (Z.to_nat (len s + n)) s.

(** [s.startswith(p)] *)
Definition startswith (s p : string) : bool := String.prefix p s.

(** [str(n)] for an [int]. *)
Definition str_int (n : Z) : string := NilZero.string_of_int (Z.to_int n).

(** [sep.join(parts)] *)
Fixpoint join (sep : string) (parts : list string) : string :=
  match parts with
  | [] => ""
  | [p] => p
  | p :: rest => p ++ sep ++ join sep rest
  end.

(** [c.isspace()] for a character below 256: the characters that
    [str.split()] and [str.strip()] treat as whitespace. *)
Definition isspace (c : ascii) : bool :=
  let n := Z.of_nat (nat_of_ascii c) in
  ((9 <=? n) && (n <=? 13)) || ((28 <=? n) && (n <=? 32))
  || (n =? 133) || (n =? 160).

(** [s.strip() == ''], that is [not s.strip()]: only whitespace, or empty. *)
Fixpoint blank (s : string) : bool :=
  match s with
  | EmptyString => true
  | String c s' => isspace c && blank s'
  end.

(** [s.lstrip()] *)
Fixpoint lstrip (s : string) : string :=
  match s with
  | EmptyString => EmptyString
  | String c s' => if isspace c then lstrip s' else s
  end.

(** [s.rstrip()] *)
Fixpoint rstrip (s : string) : string :=
  match s with
  | EmptyString => EmptyString
  | String c s' => if blank s then EmptyString else String c (rstrip s')
  end.

(** [s.split()]: the maximal runs of non-whitespace characters.  [cur] is
    the run being read, when there is one. *)
Fixpoint split_from (cur : option string) (s : string) : list string :=
  match s with
  | EmptyString => match cur with Some w => [w] | None => [] end
  | String c s' =>
      if isspace c
      then match cur with
           | Some w => w :: split_from None s'
           | None => split_from None s'
           end
      else split_from
             (Some (match cur with Some w => w | None => "" end
                    ++ String c EmptyString)) s'
  end.

Definition split (s : string) : list string := split_from None s.

(** ** [short], the truncation helper of check_gemini_key.py *)

(** [[
def short(s: str, length: int = 400) -> str:
    return s if len(s) <= length else s[:length] + "..."
]] *)
Definition short (s : string) (length : Z) : string :=
  if len s <=? length then s else slice_to s length ++ "...".

(** The default value of [length]. *)
Definition short_default_length : Z := 400.

(** ** Python values

    The values that [resp.json()] can return, and that the scripts print:
    [None], [bool], [int], [float], [str], [list] and [dict] (with string
    keys, in insertion order).  A [float] is carried as what the scripts can
    observe of it: whether it equals zero, and its [repr]. *)

Inductive value : Type :=
| VNone
| VBool (b : bool)
| VInt (n : Z)
| VFloat (zero : bool) (shown : string)
| VStr (s : string)
| VList (l : list value)
| VDict (d : list (string * value)).

(** [bool(v)]: what [or], [if] and [not] test. *)
Definition truthy (v : value) : bool :=
  match v with
  | VNone => false
  | VBool b => b
  | VInt n => negb (n =? 0)
  | VFloat zero _ => negb zero
  | VStr s => negb (String.eqb s "")
  | VList l => match l with [] => false | _ => true end
  | VDict d => match d with [] => false | _ => true end
  end.

(** [type(v).__name__] *)
Definition type_name (v : value) : string :=
  match v with
  | VNone => "NoneType"
  | VBool _ => "bool"
  | VInt _ => "int"
  | VFloat _ _ => "float"
  | VStr _ => "str"
  | VList _ => "list"
  | VDict _ => "dict"
  end.

(** [isinstance(v, list)] and [isinstance(v, dict)] *)
Definition is_list (v : value) : bool :=
  match v with VList _ => true | _ => false end.

Definition is_dict (v : value) : bool :=
  match v with VDict _ => true | _ => false end.

(** [d.get(key)] on the items of a dict: [None] when the key is absent. *)
Fixpoint dict_get (d : list (string * value)) (key : string) : value :=
  match d with
  | [] => VNone
  | (k, v) :: rest => if String.eqb k key then v else dict_get rest key
  end.

(** [key in d] *)
Fixpoint dict_has (d : list (string * value)) (key : string) : bool :=
  match d with
  | [] => false
  | (k, _) :: rest => String.eqb k key || dict_has rest key
  end.

(** [a or b], where [b] is only evaluated when [a] is falsy. *)
Definition py_or (a : value) (b : unit -> value) : value :=
  if truthy a then a else b tt.

(** *** [repr] and [str] *)

Definition hex_digit (n : nat) : ascii :=
  match n with
  | 0 => "0" | 1 => "1" | 2 => "2" | 3 => "3" | 4 => "4" | 5 => "5"
  | 6 => "6" | 7 => "7" | 8 => "8" | 9 => "9" | 10 => "a" | 11 => "b"
  | 12 => "c" | 13 => "d" | 14 => "e" | _ => "f"
  end%nat%char.

(** [c.isprintable()] for a character below 256. *)
Definition isprintable (c : ascii) : bool :=
  let n := Z.of_nat (nat_of_ascii c) in
  ((32 <=? n) && (n <=? 126)) || ((161 <=? n) && negb (n =? 173)).

(** One character of a string inside [repr], between quotes [q]. *)
Definition repr_char (q c : ascii) : string :=
  let n := nat_of_ascii c in
  if Ascii.eqb c q || Ascii.eqb c "\"%char
  then String "\"%char (String c EmptyString)
  else if Ascii.eqb c "009"%char then "\t"
  else if Ascii.eqb c "010"%char then "\n"
  else if Ascii.eqb c "013"%char then "\r"
  else if isprintable c then String c EmptyString
  else String "\"%char
         (String "x"%char
            (String (hex_digit (Nat.div n 16))
               (String (hex_digit (Nat.modulo n 16)) EmptyString))).

Fixpoint repr_chars (q : ascii) (s : string) : string :=
  match s with
  | EmptyString => EmptyString
  | String c s' => repr_char q c ++ repr_chars q s'
  end.

Fixpoint contains_char (c : ascii) (s : string) : bool :=
  match s with
  | EmptyString => false
  | String c' s' => Ascii.eqb c c' || contains_char c s'
  end.

(** [repr(s)] for a [str]: single quotes, unless the string holds a single
    quote and no double quote. *)
Definition repr_str (s : string) : string :=
  let q := if contains_char "'"%char s && negb (contains_char "034"%char s)
           then "034"%char else "'"%char in
  String q (repr_chars q s ++ String q EmptyString).

(** [repr(v)] *)
Fixpoint repr (v : value) : string :=
  match v with
  | VNone => "None"
  | VBool b => if b then "True" else "False"
  | VInt n => str_int n
  | VFloat _ shown => shown
  | VStr s => repr_str s
  | VList l => "[" ++ join ", " (map repr l) ++ "]"
  | VDict d =>
      "{" ++ join ", "
               (map (fun kv => match kv with
                               | (k, x) => repr_str k ++ ": " ++ repr x
                               end) d)
          ++ "}"
  end.

(** [str(v)] *)
Definition str (v : value) : string :=
  match v with
  | VStr s => s
  | _ => repr v
  end.

(** ** [textwrap.indent] *)

(** The characters below 256 at which [str.splitlines] ends a line. *)
Definition is_linebreak (c : ascii) : bool :=
  let n := Z.of_nat (nat_of_ascii c) in
  ((10 <=? n) && (n <=? 13)) || ((28 <=? n) && (n <=? 30)) || (n =? 133).

(** [s.splitlines(True)]: the lines of [s], each with its line ending;
    a carriage return followed by a line feed is one line ending.  [cur] is
    the line being read. *)
Fixpoint splitlines_from (cur : string) (s : string) : list string :=
  match s with
  | EmptyString => if String.eqb cur "" then [] else [cur]
  | String c s' =>
      if Ascii.eqb c "013"%char
      then match s' with
           | String "010"%char s'' =>
               (cur ++ String c (String "010"%char EmptyString))
                 :: splitlines_from "" s''
           | _ => (cur ++ String c EmptyString) :: splitlines_from "" s'
           end
      else if is_linebreak c
      then (cur ++ String c EmptyString) :: splitlines_from "" s'
      else splitlines_from (cur ++ String c EmptyString) s'
  end.

Definition splitlines (s : string) : list string := splitlines_from "" s.

(** [[
def indent(text, prefix, predicate=None):
    if predicate is None:
        def predicate(line):
            return line.strip()
    def prefixed_lines():
        for line in text.splitlines(True):
            yield (prefix + line if predicate(line) else line)
    return ''.join(prefixed_lines())
]] *)
Definition indent (text prefix : string) : string :=
  join "" (map (fun line => if negb (blank line) then prefix ++ line else line)
               (splitlines text)).

(** ** Runs: traces and exceptions *)

Inductive exn_class : Type :=
| AttributeError | TypeError | ValueError | ImportError
| RequestException | OtherException.

(** A raised exception: its class and [str(exc)]. *)
Inductive exn : Type := Exn (cls : exn_class) (msg : string).

Definition exn_str (e : exn) : string := match e with Exn _ m => m end.

(** What a script does to the outside world. *)
Inductive event : Type :=
| Print (line : string)
    (** [print(...)]: one line written to standard output *)
| HttpGet (url : string) (timeout : Z)
    (** [requests.get(url, timeout=...)] *)
| HttpPost (url : string) (payload : value) (timeout : Z)
    (** [requests.post(url, json=payload, timeout=...)] *)
| SdkClient
    (** [genai.Client()] *)
| SdkGenerateContent (model contents : string)
    (** [client.models.generate_content(model=..., contents=...)] *)
| SdkTextGenerate (model prompt : string)
    (** [genai.Text.generate(model=..., prompt=...)] *).

Inductive outcome (A : Type) : Type :=
| Ok (a : A)
| Raised (e : exn).
Arguments Ok {A} a.
Arguments Raised {A} e.

(** A computation: the events it caused, in order, and how it ended. *)
Definition M (A : Type) : Type := (list event * outcome A)%type.

Definition ret {A} (a : A) : M A := ([], Ok a).

Definition raise {A} (e : exn) : M A := ([], Raised e).

Definition bind {A B} (m : M A) (k : A -> M B) : M B :=
  match m with
  | (t, Ok a) => let (t', r) := k a in (t ++ t', r)%list
  | (t, Raised e) => (t, Raised e)
  end.

(** [try: m  except Exception as exc: h exc] *)
Definition try_except {A} (m : M A) (h : exn -> M A) : M A :=
  match m with
  | (t, Raised e) => let (t', r) := h e in (t ++ t', r)%list
  | done => done
  end.

Definition emit (ev : event) : M unit := ([ev], Ok tt).

Definition lift {A} (o : outcome A) : M A := ([], o).

Notation "x <- m ;; k" := (bind m (fun x => k))
  (at level 61, m at next level, right associativity).
Notation "m ;; k" := (bind m (fun _ => k))
  (at level 61, right associativity).

(** [print(s)] *)
Definition print (s : string) : M unit := emit (Print s).

(** The events of a run, and what it printed. *)
Definition trace {A} (m : M A) : list event := fst m.

Definition result {A} (m : M A) : outcome A := snd m.

Fixpoint stdout (t : list event) : list string :=
  match t with
  | [] => []
  | Print s :: t' => s :: stdout t'
  | _ :: t' => stdout t'
  end.

(** Network and SDK events. *)
Definition is_request (ev : event) : bool :=
  match ev with
  | Print _ => false
  | _ => true
  end.

(** The exit status of [sys.exit(main())]: the value [main] returns, or 1
    when an exception escapes [main]. *)
Definition exit_status (o : outcome Z) : Z :=
  match o with
  | Ok code => code
  | Raised _ => 1
  end.

(** ** [requests] *)

(** A response object: [resp.status_code], [resp.text], and the value
    [resp.json()] returns ([None] when it raises instead: the body is not
    valid JSON). *)
Record response : Type := Response {
  status_code : Z;
  text : string;
  json : option value
}.

(** ** scripts/check_gemini_key.py: the Key Validator *)

Module check_gemini_key.

(** How [requests.get] ends: it raises a [requests.RequestException] (no
    response was received), or returns a response. *)
Inductive get_result : Type :=
| GetRaises (exc : string)
| GetReturns (resp : response).

(** [[
if isinstance(m, dict):
    name = m.get("name") or m.get("model") or str(m)
else:
    name = str(m)
]] *)
Definition entry_name (m : value) : value :=
  match m with
  | VDict d =>
      py_or (dict_get d "name")
            (fun _ => py_or (dict_get d "model") (fun _ => VStr (str m)))
  | _ => VStr (str m)
  end.

(** [short(name, 200)] on whatever object [name] is bound to: [len] raises
    [TypeError] on an object without a length; a list or dict within the
    bound is returned as it is; beyond the bound, list + str raises
    [TypeError] and slicing a dict raises ([TypeError] up to Python 3.11,
    [KeyError] from 3.12). *)
Definition short_object (s : value) (length : Z) : outcome value :=
  match s with
  | VStr s' => Ok (VStr (short s' length))
  | VList l =>
      if Z.of_nat (List.length l) <=? length then Ok s
      else Raised (Exn TypeError
                     ("can only concatenate list (not " ++ dq ++ "str" ++ dq
                      ++ ") to list"))
  | VDict d =>
      if Z.of_nat (List.length d) <=? length then Ok s
      else Raised (Exn TypeError "unhashable type: 'slice'")
  | _ => Raised (Exn TypeError
                   ("object of type '" ++ type_name s ++ "' has no len()"))
  end.

(** [[
for m in models[:10]:
    ...
    print("  -", short(name, 200))
]] *)
Fixpoint print_entries (models : list value) : M unit :=
  match models with
  | [] => ret tt
  | m :: rest =>
      shown <- lift (short_object (entry_name m) 200) ;;
      print ("  - " ++ str shown) ;;
      print_entries rest
  end.

(** [data.get("models") or data.get("model") or data.get("availableModels")];
    [data.get] raises [AttributeError] when [data] is not a dict. *)
Definition select_models (data : value) : outcome value :=
  match data with
  | VDict d =>
      Ok (py_or (dict_get d "models")
                (fun _ => py_or (dict_get d "model")
                                (fun _ => dict_get d "availableModels")))
  | _ => Raised (Exn AttributeError
                   ("'" ++ type_name data ++ "' object has no attribute 'get'"))
  end.

(** The format heuristic, lines 38-43. *)
Definition format_line (api_key : string) : string :=
  if startswith api_key "AIza"
  then "- Looks like a Google API key (starts with 'AIza')."
  else if startswith api_key "sk-"
  then "- Looks like an OpenAI-style secret key (starts with 'sk-')."
  else "- Key format unknown. Will still attempt a validation request.".

(** Line 47. *)
Definition endpoint (api_key : string) : string :=
  "https://generativelanguage.googleapis.com/v1beta2/models?key=" ++ api_key.

(** Lines 57-95 of [main]: what is done with a received response. *)
Definition on_response (resp : response) : M Z :=
  let code := status_code resp in
  print ("- HTTP status: " ++ str_int code) ;;
  if code =? 200 then
    match json resp with
    | None =>
        print "- Received 200 but response is not valid JSON. Key may be partially valid." ;;
        ret 0
    | Some data =>
        models <- lift (select_models data) ;;
        match models with
        | VList l =>
            print ("- Key appears valid. "
                   ++ str_int (Z.of_nat (List.length l))
                   ++ " model(s) returned:") ;;
            print_entries (firstn 10 l) ;;
            ret 0
        | _ =>
            print "- Key appears valid (200). Response:" ;;
            print (indent (short (text resp) short_default_length) "  ") ;;
            ret 0
        end
    end
  else if (code =? 401) || (code =? 403) then
    print "- Unauthorized or forbidden. The API key is invalid or lacks permissions." ;;
    print (indent (short (text resp) short_default_length) "  ") ;;
    ret 4
  else
    print "- Received unexpected status. Response body (truncated):" ;;
    print (indent (short (text resp) short_default_length) "  ") ;;
    ret 5.

(** Lines 51-95 of [main]: what is done with the answer of [requests.get]. *)
Definition on_get_result (answer : get_result) : M Z :=
  match answer with
  | GetRaises exc =>
      print ("Network error while attempting to validate the key: " ++ exc) ;;
      ret 3
  | GetReturns resp => on_response resp
  end.

(** [main]: [getenv] is the value of [os.getenv("GEMINI_API_KEY")] once
    [load_dotenv()] has run, [requests_get] is the network. *)
Definition main (getenv : option string)
    (requests_get : string -> Z -> get_result) : M Z :=
  match getenv with
  | None | Some "" =>
      print "GEMINI_API_KEY not found in environment or .env file." ;;
      ret 2
  | Some api_key =>
      print "Found GEMINI_API_KEY (hidden). Performing basic checks..." ;;
      print (format_line api_key) ;;
      let endpoint := endpoint api_key in
      print ("- Requesting models endpoint: " ++ endpoint) ;;
      emit (HttpGet endpoint 10) ;;
      on_get_result (requests_get endpoint 10)
  end.

End check_gemini_key.

(** ** [textwrap.shorten]

    The standard library's [shorten(text, width)], as the Prompt Runner calls
    it: a [TextWrapper] with [max_lines=1] and every other option at its
    default (no indents, placeholder [" [...]"], [drop_whitespace],
    [break_long_words], [break_on_hyphens]).  The regular expression that
    cuts a text into chunks, [TextWrapper._split_chunks], is a parameter:
    what is proved holds for every way of cutting.

    Python keeps [chunks] reversed and pops from its end, appends to the end
    of [cur_line] and of [lines] and reads their last item: here the three
    are lists whose head is that end ([chunks] starts with the next chunk to
    place, [cur_line] and [lines] with the last item added). *)

Module textwrap.

Definition placeholder : string := " [...]".

Definition max_lines : Z := 1.

(** [s[n:]] *)
Definition slice_from (s : string) (n : Z) : string :=
  let k := if 0 <=? n then Z.to_nat n else Z.to_nat (len s + n) in
  substring k (String.length s - k) s.

(** [sum(map(len, cur_line))] *)
Fixpoint sum_len (l : list string) : Z :=
  match l with
  | [] => 0
  | s :: l' => len s + sum_len l'
  end.

(** [chunk.rfind('-', 0, stop)] for [0 <= stop]: [i] is the index of the
    head of [s], [found] the last hyphen seen. *)
Fixpoint rfind_hyphen_from (s : string) (i stop found : Z) : Z :=
  match s with
  | EmptyString => found
  | String c s' =>
      if i <? stop
      then rfind_hyphen_from s' (i + 1) stop
             (if Ascii.eqb c "-"%char then i else found)
      else found
  end.

Definition rfind_hyphen (chunk : string) (stop : Z) : Z :=
  rfind_hyphen_from chunk 0 stop (-1).

(** [any(c != '-' for c in s)] *)
Fixpoint any_not_hyphen (s : string) : bool :=
  match s with
  | EmptyString => false
  | String c s' => negb (Ascii.eqb c "-"%char) || any_not_hyphen s'
  end.

(** [[
while chunks:
    l = len(chunks[-1])
    if cur_len + l <= width:
        cur_line.append(chunks.pop())
        cur_len += l
    else:
        break
]] *)
Fixpoint fill_line (width : Z) (chunks cur_line : list string) (cur_len : Z)
  : list string * list string * Z :=
  match chunks with
  | [] => (chunks, cur_line, cur_len)
  | c :: rest =>
      if cur_len + len c <=? width
      then fill_line width rest (c :: cur_line) (cur_len + len c)
      else (chunks, cur_line, cur_len)
  end.

(** [_handle_long_word], with [break_long_words] and [break_on_hyphens]:
    the new [chunks] and [cur_line]. *)
Definition handle_long_word (chunks cur_line : list string)
    (cur_len width : Z) : list string * list string :=
  let space_left := if width <? 1 then 1 else width - cur_len in
  match chunks with
  | [] => (chunks, cur_line)
  | chunk :: rest =>
      let hyphen := rfind_hyphen chunk space_left in
      let end_ :=
        if (space_left <? len chunk) && (0 <? hyphen)
           && any_not_hyphen (slice_to chunk hyphen)
        then hyphen + 1 else space_left in
      (slice_from chunk end_ :: rest, slice_to chunk end_ :: cur_line)
  end.

(** The truncation of the last line: [[
while cur_line:
    if (cur_line[-1].strip() and
        cur_len + len(self.placeholder) <= width):
        cur_line.append(self.placeholder)
        lines.append(indent + ''.join(cur_line))
        break
    cur_len -= len(cur_line[-1])
    del cur_line[-1]
else:
    if lines:
        prev_line = lines[-1].rstrip()
        if (len(prev_line) + len(self.placeholder) <= self.width):
            lines[-1] = prev_line + self.placeholder
            break
    lines.append(indent + self.placeholder.lstrip())
]] *)
Fixpoint add_placeholder (width : Z) (cur_line : list string) (cur_len : Z)
    (lines : list string) : list string :=
  match cur_line with
  | last :: before =>
      if negb (blank last) && (cur_len + len placeholder <=? width)
      then join "" (rev (placeholder :: cur_line)) :: lines
      else add_placeholder width before (cur_len - len last) lines
  | [] =>
      match lines with
      | prev :: earlier =>
          let prev_line := rstrip prev in
          if len prev_line + len placeholder <=? width
          then (prev_line ++ placeholder) :: earlier
          else lstrip placeholder :: lines
      | [] => lstrip placeholder :: lines
      end
  end.

(** The main loop of [_wrap_chunks]; [None] when [fuel] passes of the loop
    do not end it. *)
Fixpoint wrap_loop (fuel : nat) (width : Z) (chunks lines : list string)
  : option (list string) :=
  match fuel with
  | O => None
  | S fuel' =>
      match chunks with
      | [] => Some lines
      | first :: rest =>
          (* First chunk on line is whitespace -- drop it, unless this is
             the very beginning of the text. *)
          let chunks :=
            if blank first && negb (Nat.eqb (List.length lines) 0)
            then rest else chunks in
          let '(chunks, cur_line, cur_len) := fill_line width chunks [] 0 in
          (* The next chunk is too big to fit on any line. *)
          let '(chunks, cur_line, cur_len) :=
            match chunks with
            | c :: _ =>
                if width <? len c
                then let '(chunks', cur_line') :=
                       handle_long_word chunks cur_line cur_len width in
                     (chunks', cur_line', sum_len cur_line')
                else (chunks, cur_line, cur_len)
            | [] => (chunks, cur_line, cur_len)
            end in
          (* If the last chunk on this line is all whitespace, drop it. *)
          let '(cur_line, cur_len) :=
            match cur_line with
            | last :: before =>
                if blank last then (before, cur_len - len last)
                else (cur_line, cur_len)
            | [] => (cur_line, cur_len)
            end in
          match cur_line with
          | [] => wrap_loop fuel' width chunks lines
          | _ :: _ =>
              if (Z.of_nat (List.length lines) + 1 <? max_lines)
                 || ((match chunks with
                      | [] => true
                      | [c] => blank c
                      | _ => false
                      end) && (cur_len <=? width))
              then wrap_loop fuel' width chunks
                     (join "" (rev cur_line) :: lines)
              else Some (add_placeholder width cur_line cur_len lines)
          end
      end
  end.

(** Passes that always suffice: each pass that does not leave the loop
    removes a chunk or at least one character of a chunk. *)
Definition enough_fuel (chunks : list string) : nat :=
  S (List.length chunks + Z.to_nat (sum_len chunks)).

Section Shorten.

(** [TextWrapper._split_chunks] *)
Variable split_chunks : string -> list string.

(** [_wrap_chunks(chunks)], the lines in the order of the text.  The loop
    ends within [enough_fuel chunks] passes (see [wrap_loop_ends]), so its
    last case is never taken. *)
Definition wrap_chunks (width : Z) (chunks : list string)
  : outcome (list string) :=
  if width <=? 0
  then Raised (Exn ValueError
                 ("invalid width " ++ str_int width ++ " (must be > 0)"))
  else if width <? len (lstrip placeholder)
  then Raised (Exn ValueError "placeholder too large for max width")
  else match wrap_loop (enough_fuel chunks) width chunks [] with
       | Some lines => Ok (rev lines)
       | None => Ok []
       end.

(** [[
def shorten(text, width, **kwargs):
    w = TextWrapper(width=width, max_lines=1, **kwargs)
    return w.fill(' '.join(text.strip().split()))
]] *)
Definition shorten (text : string) (width : Z) : outcome string :=
  match wrap_chunks width
          (split_chunks (join " " (split (rstrip (lstrip text))))) with
  | Ok lines => Ok (join (String "010"%char EmptyString) lines)
  | Raised e => Raised e
  end.

End Shorten.

(** The chunks of [wordsep_simple_re], which cuts at whitespace only: the
    runs of spaces and the runs of other characters.  The default
    expression cuts a text without hyphens the same way. *)
Fixpoint simple_chunks_from (cur : string) (s : string) : list string :=
  match s with
  | EmptyString => if String.eqb cur "" then [] else [cur]
  | String c s' =>
      match cur with
      | EmptyString => simple_chunks_from (String c EmptyString) s'
      | String c0 _ =>
          if Bool.eqb (Ascii.eqb c0 " "%char) (Ascii.eqb c " "%char)
          then simple_chunks_from (cur ++ String c EmptyString) s'
          else cur :: simple_chunks_from (String c EmptyString) s'
      end
  end.

Definition simple_chunks (s : string) : list string :=
  simple_chunks_from "" s.

End textwrap.

(** ** scripts/gemini_generate.py: the Prompt Runner *)

Module gemini_generate.

(** *** The objects of the vendor SDK

    What the SDK returns is any Python object: a built-in value, or an
    object with attributes, of which the script observes its truth value,
    its [str] and the attributes [text] and [response].  Reading an
    attribute may raise. *)

Inductive pyobj : Type :=
| Plain (v : value)
| Object (truth : bool) (shown : string) (attrs : list (string * attr))
with attr : Type :=
| AttrValue (o : pyobj)
| AttrRaises (e : exn).

Definition none : pyobj := Plain VNone.

(** [o is None] *)
Definition is_none (o : pyobj) : bool :=
  match o with Plain VNone => true | _ => false end.

(** [bool(o)] *)
Definition truth_of (o : pyobj) : bool :=
  match o with
  | Plain v => truthy v
  | Object truth _ _ => truth
  end.

(** [str(o)] *)
Definition str_of (o : pyobj) : string :=
  match o with
  | Plain v => str v
  | Object _ shown _ => shown
  end.

Fixpoint find_attr (attrs : list (string * attr)) (name : string)
  : option attr :=
  match attrs with
  | [] => None
  | (n, a) :: rest => if String.eqb n name then Some a else find_attr rest name
  end.

(** [getattr(o, name, default)], for the names [text] and [response], which
    no built-in value has: the default when the attribute is missing or
    reading it raises [AttributeError]; any other exception goes on. *)
Definition getattr (o : pyobj) (name : string) (default : pyobj)
  : outcome pyobj :=
  match o with
  | Plain _ => Ok default
  | Object _ _ attrs =>
      match find_attr attrs name with
      | None => Ok default
      | Some (AttrValue v) => Ok v
      | Some (AttrRaises (Exn AttributeError _)) => Ok default
      | Some (AttrRaises e) => Raised e
      end
  end.

(** A call of the SDK: it returns an object or raises. *)
Definition generate_call : Type := string -> string -> outcome pyobj.

(** [client.models], with its [generate_content] when it has one. *)
Record models_namespace : Type := ModelsNamespace {
  generate_content : option generate_call
}.

(** The object [genai.Client()] returns, with its [models] when it has
    one. *)
Record client : Type := ClientObject {
  models : option models_namespace
}.

(** [genai.Text], with its [generate] when it has one. *)
Record text_namespace : Type := TextNamespace {
  generate : option generate_call
}.

(** The module [google.genai]: [Client], when the module has one, is how
    the call [genai.Client()] ends; [Text], when it has one. *)
Record genai : Type := Genai {
  Client : option (outcome client);
  Text : option text_namespace
}.

(** How [requests.post] ends. *)
Inductive post_result : Type :=
| PostRaises (exc : exn)
| PostReturns (resp : response).

(** [[
try:
    return getattr(resp, "text", None) or getattr(resp, "response", resp), None
except Exception:
    return resp, None
]] *)
Definition extract (resp : pyobj) : pyobj :=
  match getattr resp "text" none with
  | Ok t =>
      if truth_of t then t
      else match getattr resp "response" resp with
           | Ok r => r
           | Raised _ => resp
           end
  | Raised _ => resp
  end.

(** [try_genai_library]: [sdk] is the module that [from google import genai]
    binds, [None] when the import raises. *)
Definition try_genai_library (sdk : option genai)
    (model prompt api_key : string) : M (pyobj * option string) :=
  match sdk with
  | None => ret (none, Some "google-genai library not available")
  | Some genai =>
      try_except
        (client <- match Client genai with
                   | Some call => emit SdkClient ;; c <- lift call ;;
                                  ret (Some c)
                   | None => ret None
                   end ;;
         match client with
         | Some {| models := Some {| generate_content := Some call |} |} =>
             emit (SdkGenerateContent model prompt) ;;
             resp <- lift (call model prompt) ;;
             ret (extract resp, None)
         | _ =>
             match Text genai with
             | Some {| generate := Some call |} =>
                 emit (SdkTextGenerate model prompt) ;;
                 resp <- lift (call model prompt) ;;
                 ret (resp, None)
             | _ =>
                 ret (none,
                      Some "google-genai installed but API surface not recognized")
             end
         end)
        (fun exc =>
           ret (none, Some ("google-genai call failed: " ++ exn_str exc)))
  end.

(** The request of [fallback_rest]. *)
Definition url (model api_key : string) : string :=
  "https://generativelanguage.googleapis.com/v1beta2/models/" ++ model
  ++ ":generateText?key=" ++ api_key.

Definition payload (prompt : string) : value :=
  VDict [("input", VStr prompt)].

(** [fallback_rest]: [requests] is the module that [import requests] binds,
    [None] when the import raises. *)
Definition fallback_rest
    (requests : option (string -> value -> Z -> post_result))
    (model prompt api_key : string) : M (value * option string) :=
  match requests with
  | None => raise (Exn ImportError "No module named 'requests'")
  | Some requests_post =>
      let url := url model api_key in
      let payload := payload prompt in
      emit (HttpPost url payload 20) ;;
      match requests_post url payload 20 with
      | PostRaises exc => raise exc
      | PostReturns resp =>
          match json resp with
          | Some data => ret (data, None)
          | None => ret (VStr (text resp), None)
          end
      end
  end.

(** How [parser.parse_args()] (lines 68 to 71) ends: with the values of
    [--model] (its default when the flag is absent) and of [--prompt]; or,
    given [-h] or [--help], by writing the help text to standard output and
    raising [SystemExit(0)]; or, given arguments it refuses (no [--prompt],
    an unknown flag), by writing the usage to standard error and raising
    [SystemExit(2)]. *)
Inductive parse_args_result : Type :=
| Parsed (model prompt : string)
| HelpExit (help : string)
| UsageError.

Section Main.

(** [TextWrapper._split_chunks], for [textwrap.shorten]. *)
Variable split_chunks : string -> list string.

(** [f"{err}"] *)
Definition str_err (err : option string) : string :=
  match err with
  | Some reason => reason
  | None => "None"
  end.

(** [main] from line 73 on, once [parse_args()] has returned [model] and
    [prompt]; [process] below is the whole of it. *)
Definition main (getenv : option string) (model prompt : string)
    (sdk : option genai)
    (requests : option (string -> value -> Z -> post_result)) : M Z :=
  match getenv with
  | None | Some "" =>
      print "GEMINI_API_KEY not found in environment or .env. Set it and retry." ;;
      ret 2
  | Some api_key =>
      print ("Using model: " ++ model) ;;
      tried <- try_genai_library sdk model prompt api_key ;;
      let '(result, err) := tried in
      if (match err with None => true | Some _ => false end)
         && negb (is_none result)
      then
        print "--- Result (google-genai library) ---" ;;
        shown <- lift (textwrap.shorten split_chunks (str_of result) 4000) ;;
        print shown ;;
        ret 0
      else
        print ("google-genai not used: " ++ str_err err
               ++ ". Falling back to REST endpoint...") ;;
        try_except
          (rest <- fallback_rest requests model prompt api_key ;;
           let '(rest_res, rest_err) := rest in
           print "--- Result (REST fallback) ---" ;;
           shown <- lift (textwrap.shorten split_chunks (str rest_res) 4000) ;;
           print shown ;;
           ret 0)
          (fun exc =>
             print ("REST request failed: " ++ exn_str exc) ;;
             ret 3)
  end.

(** The process [sys.exit(main())], from the first line of [main]: its
    trace and its exit status.  The arguments are parsed before the
    credential is read; [SystemExit] is no [Exception], nothing in [main]
    catches it and the interpreter exits with its code. *)
Definition process (args : parse_args_result) (getenv : option string)
    (sdk : option genai)
    (requests : option (string -> value -> Z -> post_result))
  : list event * Z :=
  match args with
  | Parsed model prompt =>
      let run := main getenv model prompt sdk requests in
      (trace run, exit_status (result run))
  | HelpExit help => ([Print help], 0)
  | UsageError => ([], 2)
  end.

End Main.

End gemini_generate.

(** ** Notions used to state the properties *)

(** The events of a trace that come before its first request. *)
Fixpoint before_request (t : list event) : list event :=
  match t with
  | [] => []
  | ev :: t' => if is_request ev then [] else ev :: before_request t'
  end.

(** The SDK's generation calls in a trace. *)
Definition is_generation (ev : event) : bool :=
  match ev with
  | SdkGenerateContent _ _ | SdkTextGenerate _ _ => true
  | _ => false
  end.

Definition is_post (ev : event) : bool :=
  match ev with
  | HttpPost _ _ _ => true
  | _ => false
  end.

(** The entry lines of the Key Validator's output, one per model shown. *)
Definition entry_lines (t : list event) : list string :=
  filter (fun line => startswith line "  - ") (stdout t).

(** [n] times the character [c]. *)
Fixpoint replicate (n : nat) (c : ascii) : string :=
  match n with
  | O => EmptyString
  | S n' => String c (replicate n' c)
  end.

(** The field names the Key Validator probes, in order. *)
Definition field_names : list string := ["models"; "model"; "availableModels"].

(** The selection as the specification words it: the first of the names
    that is present in the body wins, whatever it is bound to. *)
Fixpoint first_present (d : list (string * value)) (names : list string)
  : value :=
  match names with
  | [] => VNone
  | name :: rest =>
      if dict_has d name then dict_get d name else first_present d rest
  end.

(** The value an attribute of an object is bound to, when it has it. *)
Definition attr_value (o : gemini_generate.pyobj) (name : string)
  : option gemini_generate.pyobj :=
  match o with
  | gemini_generate.Plain _ => None
  | gemini_generate.Object _ _ attrs =>
      match gemini_generate.find_attr attrs name with
      | Some (gemini_generate.AttrValue v) => Some v
      | _ => None
      end
  end.

(** The extraction as the specification words it: the [text] attribute if
    it is present, else the [response] attribute if present, else the object
    itself. *)
Definition extract_by_presence (resp : gemini_generate.pyobj)
  : gemini_generate.pyobj :=
  match attr_value resp "text" with
  | Some t => t
  | None =>
      match attr_value resp "response" with
      | Some r => r
      | None => resp
      end
  end.

(** The first call shape: [genai.Client()] returns a client whose [models]
    has a [generate_content]. *)
Definition client_call (g : gemini_generate.genai)
  : option gemini_generate.generate_call :=
  match gemini_generate.Client g with
  | Some (Ok c) =>
      match gemini_generate.models c with
      | Some ns => gemini_generate.generate_content ns
      | None => None
      end
  | _ => None
  end.

(** The second call shape: [genai.Text] has a [generate]. *)
Definition text_call (g : gemini_generate.genai)
  : option gemini_generate.generate_call :=
  match gemini_generate.Text g with
  | Some ns => gemini_generate.generate ns
  | None => None
  end.

(** The failures of the SDK path, each with the reason the Prompt Runner
    gives: the library cannot be imported; [genai.Client()] raises; the
    generate-content call raises; the static text-generation call raises;
    the library has neither call shape. *)
Inductive sdk_fails (model prompt : string)
  : option gemini_generate.genai -> string -> Prop :=
| fails_absent :
    sdk_fails model prompt None "google-genai library not available"
| fails_client_raises g e :
    gemini_generate.Client g = Some (Raised e) ->
    sdk_fails model prompt (Some g)
      ("google-genai call failed: " ++ exn_str e)
| fails_generate_content_raises g call e :
    client_call g = Some call ->
    call model prompt = Raised e ->
    sdk_fails model prompt (Some g)
      ("google-genai call failed: " ++ exn_str e)
| fails_text_generate_raises g call e :
    (forall e', gemini_generate.Client g <> Some (Raised e')) ->
    client_call g = None ->
    text_call g = Some call ->
    call model prompt = Raised e ->
    sdk_fails model prompt (Some g)
      ("google-genai call failed: " ++ exn_str e)
| fails_not_recognized g :
    (forall e', gemini_generate.Client g <> Some (Raised e')) ->
    client_call g = None ->
    text_call g = None ->
    sdk_fails model prompt (Some g)
      "google-genai installed but API surface not recognized".

(** A computation that prints and does nothing else to the outside. *)
Definition only_prints {A} (m : M A) : Prop :=
  filter is_request (trace m) = [].

(** The entries whose name [short] accepts: a string, or a list or dict of
    at most 200 items. *)
Definition name_is_shown (m : value) : Prop :=
  exists shown,
    check_gemini_key.short_object (check_gemini_key.entry_name m) 200
    = Ok shown.

(** The input against C3 as stated: "models" is present and bound to an
    empty list, "model" to a list of one name. *)
Definition body_with_empty_models : list (string * value) :=
  [("models", VList []); ("model", VList [VStr "models/gemini-pro"])].

(** The input against C9 as stated: the three fields are falsy, and the
    last one probed is an empty list. *)
Definition body_with_empty_lists : list (string * value) :=
  [("models", VList []); ("availableModels", VList [])].

(** Reading the attribute raises something else than [AttributeError]. *)
Definition attr_raises (o : gemini_generate.pyobj) (name : string) : bool :=
  match o with
  | gemini_generate.Plain _ => false
  | gemini_generate.Object _ _ attrs =>
      match gemini_generate.find_attr attrs name with
      | Some (gemini_generate.AttrRaises (Exn AttributeError _)) => false
      | Some (gemini_generate.AttrRaises _) => true
      | _ => false
      end
  end.

(** The [text] attribute is passed over: it is missing, or bound to a falsy
    value. *)
Definition text_skipped (resp : gemini_generate.pyobj) : Prop :=
  attr_raises resp "text" = false
  /\ match attr_value resp "text" with
     | Some t => gemini_generate.truth_of t = false
     | None => True
     end.

(** The input against C7 as stated: a response object whose [text] is
    there and bound to [None], and which has no [response]. *)
Definition response_without_text : gemini_generate.pyobj :=
  gemini_generate.Object true "GenerateContentResponse(candidates=[])"
    [("text", gemini_generate.AttrValue gemini_generate.none)].

(** The string starts with a whitespace character. *)
Definition starts_space (s : string) : bool :=
  match s with
  | EmptyString => false
  | String c _ => isspace c
  end.

(** The string is empty or ends with a character that is not whitespace. *)
Fixpoint ends_nonspace (s : string) : bool :=
  match s with
  | EmptyString => true
  | String c EmptyString => negb (isspace c)
  | String _ s' => ends_nonspace s'
  end.

(** A word of [split]: not empty, and ending with no whitespace. *)
Definition is_word (w : string) : Prop :=
  w <> "" /\ ends_nonspace w = true.

(** What the loop has when it starts a pass: no line yet, or the one line
    that fits, and then nothing left but a chunk of whitespace. *)
Definition one_line_left (width : Z) (chunks lines : list string) : Prop :=
  lines = []
  \/ exists line, lines = [line] /\ len line <= width
                  /\ (chunks = [] \/ exists c, chunks = [c] /\ blank c = true).

(** At most one line, within the width. *)
Definition one_line_within (width : Z) (lines : list string) : Prop :=
  lines = [] \/ exists line, lines = [line] /\ len line <= width.

(** What a pass of the loop of [_wrap_chunks] makes smaller: the number of
    chunks plus their characters. *)
Definition weight (chunks : list string) : nat :=
  (List.length chunks + Z.to_nat (textwrap.sum_len chunks))%nat.

(** The input against C1 as stated: a response body of 401 characters. *)
Definition body_of_401_characters : string := replicate 401 "x".

(** A text too long for the Prompt Runner's bound: a word of 4001
    characters. *)
Definition word_of_4001_characters : string := replicate 4001 "x".

(** The string holds a character at which [str.splitlines] ends a line. *)
Fixpoint has_linebreak (s : string) : bool :=
  match s with
  | EmptyString => false
  | String c s' => is_linebreak c || has_linebreak s'
  end.

(** * Properties *)

(** ** Strings *)

Lemma append_empty_r (s : string) : s ++ "" = s.
Proof. induction s as [|c s IH]; simpl; [reflexivity | now rewrite IH]. Qed.

Lemma append_cancel_l (p a b : string) : p ++ a = p ++ b -> a = b.
Proof.
  induction p as [|c p IH]; simpl; intros H.
  - exact H.
  - injection H as H. now apply IH.
Qed.

Lemma len_append (a b : string) : len (a ++ b) = len a + len b.
Proof.
  unfold len. induction a as [|c a IH]; simpl String.length.
  - simpl. lia.
  - rewrite !Nat2Z.inj_succ. simpl in IH. lia.
Qed.

Lemma len_nonneg (s : string) : 0 <= len s.
Proof. unfold len. lia. Qed.

Lemma length_take (n : nat) (s : string) :
  (n <= String.length s)%nat -> String.length (substring 0 n s) = n.
Proof.
  revert s. induction n as [|n IH]; intros [|c s] H; simpl in *;
    try reflexivity; try lia.
  rewrite IH; [reflexivity | lia].
Qed.

Lemma take_all (n : nat) (s : string) :
  (String.length s <= n)%nat -> substring 0 n s = s.
Proof.
  revert s. induction n as [|n IH]; intros [|c s] H; simpl in *;
    try reflexivity; try lia.
  rewrite IH; [reflexivity | lia].
Qed.

Lemma len_slice_to (s : string) (n : Z) :
  0 <= n -> n <= len s -> len (slice_to s n) = n.
Proof.
  intros H0 H. unfold slice_to, len in *.
  destruct (0 <=? n) eqn:E; [| lia].
  rewrite length_take; lia.
Qed.

(** ** Runs *)

Lemma trace_bind {A B} (m : M A) (k : A -> M B) :
  trace (bind m k)
  = (trace m ++ match result m with
                | Ok a => trace (k a)
                | Raised _ => []
                end)%list.
Proof.
  destruct m as [t [a|e]]; unfold bind, trace, result; simpl.
  - now destruct (k a).
  - now rewrite app_nil_r.
Qed.

Lemma result_bind {A B} (m : M A) (k : A -> M B) :
  result (bind m k)
  = match result m with
    | Ok a => result (k a)
    | Raised e => Raised e
    end.
Proof.
  destruct m as [t [a|e]]; unfold bind, result; simpl; [| reflexivity].
  now destruct (k a).
Qed.

Lemma only_prints_bind {A B} (m : M A) (k : A -> M B) :
  only_prints m -> (forall a, only_prints (k a)) -> only_prints (bind m k).
Proof.
  unfold only_prints. intros Hm Hk. rewrite trace_bind, filter_app, Hm.
  destruct (result m); [apply Hk | reflexivity].
Qed.

Lemma only_prints_print (s : string) : only_prints (print s).
Proof. reflexivity. Qed.

Lemma only_prints_ret {A} (a : A) : only_prints (ret a).
Proof. reflexivity. Qed.

Lemma only_prints_lift {A} (o : outcome A) : only_prints (lift o).
Proof. reflexivity. Qed.

Ltac only_prints_steps :=
  repeat first
    [ apply only_prints_print | apply only_prints_ret | apply only_prints_lift
    | apply only_prints_bind; [| intros ? ] ].

(** ** Runs of the Key Validator *)

Import check_gemini_key.

(** With a credential, [main] prints its three lines, sends the request and
    goes on with the answer. *)
Lemma main_with_credential (api_key : string)
    (requests_get : string -> Z -> get_result) :
  api_key <> "" ->
  main (Some api_key) requests_get =
    (Print "Found GEMINI_API_KEY (hidden). Performing basic checks..."
       :: Print (format_line api_key)
       :: Print ("- Requesting models endpoint: " ++ endpoint api_key)
       :: HttpGet (endpoint api_key) 10
       :: trace (on_get_result (requests_get (endpoint api_key) 10)),
     result (on_get_result (requests_get (endpoint api_key) 10))).
Proof.
  intros Hkey. destruct api_key as [|c k]; [contradiction |].
  unfold main, trace, result, print, emit, bind.
  destruct (on_get_result _) as [t r]. reflexivity.
Qed.

(** When the credential is absent from the environment (unset, or set to
    the empty string), the Key Validator, and the Prompt Runner once its
    arguments are parsed, print their one message and return 2: the trace
    holds no request, whatever the network, the SDK and the arguments
    are. *)
Theorem missing_credential_returns_2_before_any_request :
  (forall getenv requests_get,
      (match getenv with None | Some "" => true | Some _ => false end) = true ->
      let run := check_gemini_key.main getenv requests_get in
      run = ([Print "GEMINI_API_KEY not found in environment or .env file."],
             Ok 2)
      /\ exit_status (result run) = 2
      /\ filter is_request (trace run) = [])
  /\
  (forall split_chunks getenv model prompt sdk requests,
      (match getenv with None | Some "" => true | Some _ => false end) = true ->
      let run :=
        gemini_generate.main split_chunks getenv model prompt sdk requests in
      run = ([Print "GEMINI_API_KEY not found in environment or .env. Set it and retry."],
             Ok 2)
      /\ exit_status (result run) = 2
      /\ filter is_request (trace run) = []).
Proof.
  split.
  - intros getenv requests_get H.
    destruct getenv as [[|c k]|]; try discriminate H; cbv; auto.
  - intros split_chunks getenv model prompt sdk requests H.
    destruct getenv as [[|c k]|]; try discriminate H; cbv; auto.
Qed.

Lemma missing_credential_witness :
  exit_status
    (result (check_gemini_key.main None
               (fun _ _ => GetReturns (Response 200 "{}" (Some (VDict []))))))
  = 2
  /\ exit_status
       (result (gemini_generate.main textwrap.simple_chunks (Some "")
                  "gemini-2.5-flash" "Explain AI in a few words" None None))
     = 2.
Proof.
  split.
  - apply (proj1 missing_credential_returns_2_before_any_request None).
    reflexivity.
  - apply (proj2 missing_credential_returns_2_before_any_request
             textwrap.simple_chunks (Some "")).
    reflexivity.
Defined.

(** C8 as stated fails: the Prompt Runner parses its arguments before it
    reads the credential, so an invocation with [--help] and no credential
    prints the help and exits with status 0, not 2. *)
Lemma help_without_credential_exits_0 :
  gemini_generate.process textwrap.simple_chunks
    (gemini_generate.HelpExit
       "usage: gemini_generate.py [-h] [--model MODEL] --prompt PROMPT")
    None None None
  = ([Print "usage: gemini_generate.py [-h] [--model MODEL] --prompt PROMPT"],
     0).
Proof. reflexivity. Qed.

(** C8, amended: when the credential is absent from the environment (unset,
    or set to the empty string), the Key Validator, and the Prompt Runner
    whenever its arguments parse, print their one message and exit with
    status 2, and no network call and no SDK call is made, whatever the
    network and the SDK are.  When the Prompt Runner's arguments do not
    parse, the process ends before the credential is read, with status 0
    on a help request and 2 on a usage error, and makes no request
    either. *)
Theorem missing_credential_stops_before_any_request :
  (forall getenv requests_get,
      (match getenv with None | Some "" => true | Some _ => false end) = true ->
      let run := check_gemini_key.main getenv requests_get in
      run = ([Print "GEMINI_API_KEY not found in environment or .env file."],
             Ok 2)
      /\ exit_status (result run) = 2
      /\ filter is_request (trace run) = [])
  /\
  (forall split_chunks args getenv sdk requests,
      (match getenv with None | Some "" => true | Some _ => false end) = true ->
      let ended :=
        gemini_generate.process split_chunks args getenv sdk requests in
      ended
      = match args with
        | gemini_generate.Parsed _ _ =>
            ([Print "GEMINI_API_KEY not found in environment or .env. Set it and retry."],
             2)
        | gemini_generate.HelpExit help => ([Print help], 0)
        | gemini_generate.UsageError => ([], 2)
        end
      /\ filter is_request (fst ended) = []).
Proof.
  split.
  - intros getenv requests_get H.
    destruct getenv as [[|c k]|]; try discriminate H; cbv; auto.
  - intros split_chunks args getenv sdk requests H.
    destruct args as [model prompt | help |];
      destruct getenv as [[|c k]|]; try discriminate H; cbv; auto.
Qed.

Lemma missing_credential_stops_witness :
  exit_status
    (result (check_gemini_key.main None
               (fun _ _ => GetReturns (Response 200 "{}" (Some (VDict []))))))
  = 2
  /\ gemini_generate.process textwrap.simple_chunks
       (gemini_generate.Parsed "gemini-2.5-flash" "Explain AI in a few words")
       (Some "") None None
     = ([Print "GEMINI_API_KEY not found in environment or .env. Set it and retry."],
        2).
Proof.
  split.
  - apply (proj1 missing_credential_stops_before_any_request None).
    reflexivity.
  - apply (proj2 missing_credential_stops_before_any_request
             textwrap.simple_chunks
             (gemini_generate.Parsed "gemini-2.5-flash"
                "Explain AI in a few words") (Some "")).
    reflexivity.
Defined.

Lemma print_entries_only_prints (ms : list value) :
  only_prints (print_entries ms).
Proof.
  induction ms as [|m ms IH]; cbn [print_entries]; only_prints_steps.
  exact IH.
Qed.

(** Nothing is requested once the answer is there. *)
Lemma on_get_result_only_prints (answer : get_result) :
  only_prints (on_get_result answer).
Proof.
  destruct answer as [exc | resp]; cbn [on_get_result].
  - only_prints_steps.
  - unfold on_response. only_prints_steps.
    destruct (status_code resp =? 200).
    + destruct (json resp) as [data|]; only_prints_steps.
      destruct a0; only_prints_steps.
      apply print_entries_only_prints.
    + destruct ((status_code resp =? 401) || (status_code resp =? 403));
        only_prints_steps.
Qed.

(** C5: for a credential that starts with neither "AIza" nor "sk-", the
    format heuristic prints its unknown-format line and the GET is sent all
    the same; for every credential, what follows the GET (the outcome and
    the exit code) is [on_get_result] of the network's answer, in which the
    heuristic has no part. *)
Theorem format_heuristic_never_blocks_the_request (api_key : string)
    (requests_get : string -> Z -> get_result) :
  api_key <> "" ->
  let run := main (Some api_key) requests_get in
  let answer := requests_get (endpoint api_key) 10 in
  (startswith api_key "AIza" = false ->
   startswith api_key "sk-" = false ->
   nth_error (stdout (trace run)) 1
   = Some "- Key format unknown. Will still attempt a validation request.")
  /\ filter is_request (trace run) = [HttpGet (endpoint api_key) 10]
  /\ trace run =
       Print "Found GEMINI_API_KEY (hidden). Performing basic checks..."
         :: Print (format_line api_key)
         :: Print ("- Requesting models endpoint: " ++ endpoint api_key)
         :: HttpGet (endpoint api_key) 10
         :: trace (on_get_result answer)
  /\ result run = result (on_get_result answer).
Proof.
  intros Hkey run answer. subst run answer.
  rewrite (main_with_credential _ _ Hkey).
  unfold trace at 1 2 3, result at 1. cbn [fst snd stdout nth_error].
  repeat split.
  - intros H1 H2. unfold format_line. now rewrite H1, H2.
  - cbn [filter is_request]. f_equal. apply on_get_result_only_prints.
Qed.

Lemma format_heuristic_witness :
  filter is_request
    (trace (main (Some "my-secret-key")
              (fun _ _ => GetReturns (Response 403 "denied" None))))
  = [HttpGet (endpoint "my-secret-key") 10].
Proof.
  apply (format_heuristic_never_blocks_the_request "my-secret-key").
  discriminate.
Defined.

(** C10: in every run that reaches the network step, standard output holds,
    before the GET is sent, the line announcing that the key is hidden, the
    format line, and the request URL, which ends with the credential itself;
    so two runs whose credentials differ have already printed different
    output before any answer of the network, whatever the networks are. *)
Theorem credential_is_printed_with_the_url (key1 key2 : string)
    (net1 net2 : string -> Z -> get_result) :
  key1 <> "" -> key2 <> "" -> key1 <> key2 ->
  stdout (before_request (trace (main (Some key1) net1)))
  = [ "Found GEMINI_API_KEY (hidden). Performing basic checks...";
      format_line key1;
      "- Requesting models endpoint: https://generativelanguage.googleapis.com/v1beta2/models?key="
        ++ key1 ]
  /\ stdout (before_request (trace (main (Some key1) net1)))
     <> stdout (before_request (trace (main (Some key2) net2))).
Proof.
  intros H1 H2 Hneq.
  rewrite (main_with_credential _ _ H1), (main_with_credential _ _ H2).
  unfold trace at 1 3 5. cbn [fst before_request is_request stdout].
  split; [reflexivity |].
  intros Heq.
  assert (Hurl : "- Requesting models endpoint: " ++ endpoint key1
                 = "- Requesting models endpoint: " ++ endpoint key2)
    by congruence.
  apply Hneq. unfold endpoint in Hurl.
  now apply append_cancel_l, append_cancel_l in Hurl.
Qed.

Lemma credential_is_printed_witness :
  stdout (before_request
            (trace (main (Some "AIzaSyA-secret-1")
                      (fun _ _ => GetRaises "timed out"))))
  <> stdout (before_request
               (trace (main (Some "AIzaSyA-secret-2")
                         (fun _ _ => GetRaises "timed out")))).
Proof.
  apply (credential_is_printed_with_the_url
           "AIzaSyA-secret-1" "AIzaSyA-secret-2"); discriminate.
Defined.

(** *** The probed field names *)

Lemma select_models_dict (d : list (string * value)) :
  select_models (VDict d)
  = Ok (if truthy (dict_get d "models") then dict_get d "models"
        else if truthy (dict_get d "model") then dict_get d "model"
        else dict_get d "availableModels").
Proof. reflexivity. Qed.

(** A 200 response whose body is a JSON object: the branch taken is decided
    by the selected value. *)
Lemma on_response_200_object (raw : string) (d : list (string * value))
    (selected : value) :
  select_models (VDict d) = Ok selected ->
  on_response (Response 200 raw (Some (VDict d)))
  = match selected with
    | VList l =>
        (Print "- HTTP status: 200"
           :: Print ("- Key appears valid. "
                     ++ str_int (Z.of_nat (List.length l))
                     ++ " model(s) returned:")
           :: trace (print_entries (firstn 10 l)),
         match result (print_entries (firstn 10 l)) with
         | Ok _ => Ok 0
         | Raised e => Raised e
         end)
    | _ =>
        ([Print "- HTTP status: 200";
          Print "- Key appears valid (200). Response:";
          Print (indent (short raw short_default_length) "  ")],
         Ok 0)
    end.
Proof.
  intros Hsel. unfold on_response.
  cbn [status_code json text]. rewrite Hsel.
  change (200 =? 200) with true. cbv iota.
  change (str_int 200) with "200".
  destruct selected; try reflexivity.
  unfold bind, lift, print, emit, ret, trace, result.
  destruct (print_entries (firstn 10 l)) as [t [u|e]]; cbn;
    rewrite ?app_nil_r; reflexivity.
Qed.

(** C3 as stated fails: "models" is present in the body, and the value
    selected is the one of "model". *)
Lemma later_field_selected_though_models_present :
  dict_has body_with_empty_models "models" = true
  /\ first_present body_with_empty_models field_names = VList []
  /\ select_models (VDict body_with_empty_models)
     = Ok (VList [VStr "models/gemini-pro"])
  /\ stdout (trace (on_response
                      (Response 200
                         ("{" ++ dq ++ "models" ++ dq ++ ": [], "
                          ++ dq ++ "model" ++ dq ++ ": ["
                          ++ dq ++ "models/gemini-pro" ++ dq ++ "]}")
                         (Some (VDict body_with_empty_models)))))
     = ["- HTTP status: 200"; "- Key appears valid. 1 model(s) returned:";
        "  - models/gemini-pro"].
Proof. repeat split. Qed.

(** C3, amended: the three names are probed in the order "models", "model",
    "availableModels", and the first one bound to a truthy value wins: when
    "models" is truthy the selection is its value whatever else the body
    holds, when "models" is falsy and "model" truthy it is the value of
    "model", and otherwise it is whatever "availableModels" is bound to
    ([None] when absent).  The success-with-list branch is taken exactly
    when the selected value is a list. *)
Theorem first_truthy_field_wins (d : list (string * value)) (raw : string) :
  let models := dict_get d "models" in
  let model := dict_get d "model" in
  let available := dict_get d "availableModels" in
  let selected :=
    if truthy models then models else if truthy model then model
    else available in
  select_models (VDict d) = Ok selected
  /\ (forall d', dict_get d' "models" = models -> truthy models = true ->
        select_models (VDict d') = Ok models)
  /\ (forall d', dict_get d' "models" = models -> truthy models = false ->
        dict_get d' "model" = model -> truthy model = true ->
        select_models (VDict d') = Ok model)
  /\ nth_error
       (stdout (trace (on_response (Response 200 raw (Some (VDict d)))))) 1
     = Some (match selected with
             | VList l => "- Key appears valid. "
                          ++ str_int (Z.of_nat (List.length l))
                          ++ " model(s) returned:"
             | _ => "- Key appears valid (200). Response:"
             end).
Proof.
  intros models model available selected. repeat split.
  - intros d' H1 Ht. rewrite select_models_dict, H1, Ht. reflexivity.
  - intros d' H1 Hf H2 Ht. rewrite select_models_dict, H1, Hf, H2, Ht.
    reflexivity.
  - rewrite (on_response_200_object raw d selected (select_models_dict d)).
    destruct selected; reflexivity.
Qed.

Lemma first_truthy_field_witness :
  select_models
    (VDict [("model", VStr "ignored");
            ("models", VList [VStr "models/gemini-pro"])])
  = Ok (VList [VStr "models/gemini-pro"]).
Proof.
  apply (first_truthy_field_wins
           [("models", VList [VStr "models/gemini-pro"])] "");
    reflexivity.
Defined.

(** C9 as stated fails: with the three fields falsy, the validator prints
    the "0 model(s) returned" line of the success-with-list branch. *)
Lemma zero_models_line_is_printed :
  truthy (dict_get body_with_empty_lists "models") = false
  /\ truthy (dict_get body_with_empty_lists "model") = false
  /\ truthy (dict_get body_with_empty_lists "availableModels") = false
  /\ main (Some "AIzaSyExample")
          (fun _ _ =>
             GetReturns
               (Response 200
                  ("{" ++ dq ++ "models" ++ dq ++ ": [], "
                   ++ dq ++ "availableModels" ++ dq ++ ": []}")
                  (Some (VDict body_with_empty_lists))))
     = ([Print "Found GEMINI_API_KEY (hidden). Performing basic checks...";
         Print "- Looks like a Google API key (starts with 'AIza').";
         Print "- Requesting models endpoint: https://generativelanguage.googleapis.com/v1beta2/models?key=AIzaSyExample";
         HttpGet "https://generativelanguage.googleapis.com/v1beta2/models?key=AIzaSyExample" 10;
         Print "- HTTP status: 200";
         Print "- Key appears valid. 0 model(s) returned:"],
        Ok 0).
Proof. repeat split. Qed.

(** C9, amended: a "models" field bound to a falsy value is skipped, and
    "model" then "availableModels" are probed.  When "models" and "model"
    are falsy the selection is whatever "availableModels" is bound to; when
    that is falsy too, the exit code is 0 and the success-opaque branch
    prints the truncated raw body, unless "availableModels" is bound to an
    empty list: then the line "0 model(s) returned" is printed, with no
    entry. *)
Theorem falsy_fields_are_skipped (d : list (string * value)) (raw : string) :
  truthy (dict_get d "models") = false ->
  select_models (VDict d)
  = Ok (if truthy (dict_get d "model") then dict_get d "model"
        else dict_get d "availableModels")
  /\ (truthy (dict_get d "model") = false ->
      truthy (dict_get d "availableModels") = false ->
      on_response (Response 200 raw (Some (VDict d)))
      = if is_list (dict_get d "availableModels")
        then ([Print "- HTTP status: 200";
               Print "- Key appears valid. 0 model(s) returned:"],
              Ok 0)
        else ([Print "- HTTP status: 200";
               Print "- Key appears valid (200). Response:";
               Print (indent (short raw 400) "  ")],
              Ok 0)).
Proof.
  intros H1. rewrite select_models_dict, H1. split; [reflexivity |].
  intros H2 H3.
  rewrite (on_response_200_object raw d (dict_get d "availableModels")).
  - destruct (dict_get d "availableModels") as [ | | | | |l| ];
      try reflexivity.
    destruct l; [reflexivity | discriminate H3].
  - rewrite select_models_dict, H1, H2. reflexivity.
Qed.

Lemma falsy_fields_witness :
  on_response
    (Response 200 ("{" ++ dq ++ "models" ++ dq ++ ": []}")
       (Some (VDict [("models", VList [])])))
  = ([Print "- HTTP status: 200";
      Print "- Key appears valid (200). Response:";
      Print ("  {" ++ dq ++ "models" ++ dq ++ ": []}")],
     Ok 0).
Proof.
  apply (falsy_fields_are_skipped [("models", VList [])]); reflexivity.
Defined.

(** *** Exit codes *)

(** The exit status by outcome, as far as the code gives it: 2 without a
    credential, 3 on a transport error, 4 on 401 or 403, 5 on any other
    status than 200, and 0 on a 200 whose body is not valid JSON or is a JSON
    object in which the selected value is not a list. *)
Lemma exit_status_by_outcome (api_key : string)
    (requests_get : string -> Z -> get_result) :
  api_key <> "" ->
  let status := exit_status (result (main (Some api_key) requests_get)) in
  match requests_get (endpoint api_key) 10 with
  | GetRaises _ => status = 3
  | GetReturns resp =>
      if status_code resp =? 200 then
        match json resp with
        | None => status = 0
        | Some (VDict d) =>
            forall selected, select_models (VDict d) = Ok selected ->
                             is_list selected = false -> status = 0
        | Some _ => status = 1
        end
      else if (status_code resp =? 401) || (status_code resp =? 403)
      then status = 4
      else status = 5
  end.
Proof.
  intros Hkey status. subst status.
  rewrite (main_with_credential _ _ Hkey). unfold result at 1. cbn [snd].
  destruct (requests_get _ _) as [exc | resp]; [reflexivity |].
  cbn [on_get_result]. destruct resp as [code raw body]. cbn [status_code json].
  destruct (code =? 200) eqn:Ecode.
  - apply Z.eqb_eq in Ecode. subst code.
    destruct body as [data|]; [| reflexivity].
    destruct data; try reflexivity.
    intros selected Hsel Hlist.
    rewrite (on_response_200_object raw d selected Hsel).
    destruct selected; try discriminate Hlist; reflexivity.
  - unfold on_response. cbn [status_code json text]. rewrite Ecode.
    destruct ((code =? 401) || (code =? 403)); reflexivity.
Qed.

(** C2, at the failing input: the credential is present and the answer is
    an HTTP 200 whose body is the JSON text [[]].  [data.get] raises
    [AttributeError], nothing catches it, and the process exits with status
    1 where the specification gives 0. *)
Theorem http_200_with_json_array_body_exits_1 :
  let run :=
    main (Some "AIzaSyExample")
         (fun _ _ => GetReturns (Response 200 "[]" (Some (VList [])))) in
  stdout (trace run)
  = [ "Found GEMINI_API_KEY (hidden). Performing basic checks...";
      "- Looks like a Google API key (starts with 'AIza').";
      "- Requesting models endpoint: https://generativelanguage.googleapis.com/v1beta2/models?key=AIzaSyExample";
      "- HTTP status: 200" ]
  /\ result run
     = Raised (Exn AttributeError "'list' object has no attribute 'get'")
  /\ exit_status (result run) = 1.
Proof. repeat split. Qed.

(** *** Entry lines *)

Lemma startswith_append (p s : string) : startswith (p ++ s) p = true.
Proof.
  unfold startswith. induction p as [|c p IH]; simpl.
  - now destruct s.
  - destruct (ascii_dec c c) as [_|n]; [exact IH | now destruct n].
Qed.

Lemma print_entries_shown (ms : list value) :
  Forall name_is_shown ms ->
  result (print_entries ms) = Ok tt
  /\ List.length (entry_lines (trace (print_entries ms))) = List.length ms
  /\ entry_lines (trace (print_entries ms)) = stdout (trace (print_entries ms)).
Proof.
  induction 1 as [|m ms [shown Hm] _ (IHr & IHn & IHe)]; [now cbv |].
  cbn [print_entries]. rewrite Hm.
  unfold entry_lines in *. unfold bind, lift, print, emit, trace, result in *.
  destruct (print_entries ms) as [t r]. cbn [fst snd] in *. subst r.
  cbn [app stdout filter fst snd]. rewrite startswith_append.
  cbn [List.length]. rewrite IHn, IHe. auto.
Qed.

(** When the name of each of the first ten entries is one that [short]
    accepts, the validator prints [min(N, 10)] entry lines and returns 0. *)
Lemma models_list_prints_min_n_10 (api_key raw : string)
    (d : list (string * value)) (l : list value)
    (requests_get : string -> Z -> get_result) :
  api_key <> "" ->
  requests_get (endpoint api_key) 10
  = GetReturns (Response 200 raw (Some (VDict d))) ->
  dict_get d "models" = VList l -> l <> [] ->
  Forall name_is_shown (firstn 10 l) ->
  let run := main (Some api_key) requests_get in
  List.length (entry_lines (trace run)) = Nat.min (List.length l) 10
  /\ result run = Ok 0.
Proof.
  intros Hkey Hget Hmodels Hne Hshown run. subst run.
  rewrite (main_with_credential _ _ Hkey), Hget. cbn [on_get_result].
  assert (Hsel : select_models (VDict d) = Ok (VList l)).
  { rewrite select_models_dict, Hmodels. destruct l; [contradiction | reflexivity]. }
  rewrite (on_response_200_object raw d _ Hsel).
  destruct (print_entries_shown _ Hshown) as (Hr & Hn & He).
  unfold trace at 1 2, result at 1 3. cbn [fst snd]. rewrite Hr. split; [| reflexivity].
  assert (Hformat : startswith (format_line api_key) "  - " = false).
  { unfold format_line.
    destruct (startswith api_key "AIza"); [reflexivity |].
    destruct (startswith api_key "sk-"); reflexivity. }
  unfold entry_lines in *. cbn [stdout filter]. rewrite Hformat.
  change (startswith "Found GEMINI_API_KEY (hidden). Performing basic checks..."
            "  - ") with false.
  change (startswith "- HTTP status: 200" "  - ") with false.
  change (startswith ("- Requesting models endpoint: " ++ endpoint api_key)
            "  - ") with false.
  change (startswith ("- Key appears valid. "
                      ++ str_int (Z.of_nat (List.length l))
                      ++ " model(s) returned:") "  - ") with false.
  cbv iota. rewrite Hn, length_firstn, Nat.min_comm. reflexivity.
Qed.

(** C4, at the failing input: the body is the JSON object that maps "models"
    to a list of one entry, a dict whose "name" is the number 5.  [short]
    calls [len] on the number, [TypeError] escapes, no entry line is printed
    (the specification gives [min(1, 10) = 1]) and the process exits with
    status 1 (the specification gives 0). *)
Theorem numeric_model_name_exits_1_without_entry_line :
  let body := VDict [("models", VList [VDict [("name", VInt 5)]])] in
  let raw := "{" ++ dq ++ "models" ++ dq ++ ": [{" ++ dq ++ "name" ++ dq
             ++ ": 5}]}" in
  let run :=
    main (Some "AIzaSyExample")
         (fun _ _ => GetReturns (Response 200 raw (Some body))) in
  stdout (trace run)
  = [ "Found GEMINI_API_KEY (hidden). Performing basic checks...";
      "- Looks like a Google API key (starts with 'AIza').";
      "- Requesting models endpoint: https://generativelanguage.googleapis.com/v1beta2/models?key=AIzaSyExample";
      "- HTTP status: 200";
      "- Key appears valid. 1 model(s) returned:" ]
  /\ entry_lines (trace run) = []
  /\ result run = Raised (Exn TypeError "object of type 'int' has no len()")
  /\ exit_status (result run) = 1.
Proof. repeat split. Qed.

(** ** Runs of the Prompt Runner *)

Import gemini_generate.

(** *** The extraction of the SDK's result *)

(** C7 as stated fails: the [text] attribute is present, and the result is
    the response object itself, not the value of [text]. *)
Lemma present_text_attribute_not_taken :
  attr_value response_without_text "text" = Some none
  /\ extract_by_presence response_without_text = none
  /\ extract response_without_text = response_without_text
  /\ try_genai_library
       (Some (Genai
                (Some (Ok (ClientObject
                             (Some (ModelsNamespace
                                      (Some (fun _ _ =>
                                               Ok response_without_text)))))))
                None))
       "gemini-2.5-flash" "Explain AI in a few words" "AIzaSyExample"
     = ([SdkClient;
         SdkGenerateContent "gemini-2.5-flash" "Explain AI in a few words"],
        Ok (response_without_text, None)).
Proof. repeat split. Qed.

(** C7, amended: the result is the [text] attribute when it is present and
    truthy; when [text] is missing or falsy, it is the [response] attribute
    if present, whatever its truth value, else the object returned; it is
    the object returned as well when reading [text] raises. *)
Theorem extract_takes_truthy_text_else_response (resp : pyobj) :
  (forall t, attr_value resp "text" = Some t -> truth_of t = true ->
             extract resp = t)
  /\ (forall r, text_skipped resp -> attr_value resp "response" = Some r ->
                extract resp = r)
  /\ (text_skipped resp -> attr_value resp "response" = None ->
      extract resp = resp)
  /\ (attr_raises resp "text" = true -> extract resp = resp).
Proof.
  destruct resp as [v | truth shown attrs].
  - repeat split; try discriminate; reflexivity.
  - unfold text_skipped, extract, attr_value, attr_raises, getattr.
    destruct (find_attr attrs "text") as [[t | [[] msg]] |];
      destruct (find_attr attrs "response") as [[r | [[] msg']] |];
      repeat split; intros;
      repeat match goal with
             | H : _ /\ _ |- _ => destruct H
             | H : Some _ = Some _ |- _ => injection H as H; subst
             | H : truth_of _ = _ |- _ => rewrite H
             end;
      try discriminate; try reflexivity; cbn [truth_of none truthy];
      try reflexivity.
Qed.

Lemma extract_witness :
  extract
    (Object true "GenerateContentResponse(...)"
       [("text", AttrValue (Plain (VStr "AI learns patterns from data.")))])
  = Plain (VStr "AI learns patterns from data.").
Proof.
  apply (proj1 (extract_takes_truthy_text_else_response
                  (Object true "GenerateContentResponse(...)"
                     [("text",
                       AttrValue (Plain (VStr "AI learns patterns from data.")))])));
    reflexivity.
Defined.

(** *** The fallback *)

(** At width 4000, [shorten] raises nothing. *)
Lemma shorten_4000_returns (split_chunks : string -> list string)
    (s : string) :
  exists shown, textwrap.shorten split_chunks s 4000 = Ok shown.
Proof.
  unfold textwrap.shorten, textwrap.wrap_chunks.
  change (4000 <=? 0) with false.
  change (4000 <? len (lstrip textwrap.placeholder)) with false.
  cbv iota.
  destruct (textwrap.wrap_loop _ _ _ _); eexists; reflexivity.
Qed.

(** A failing SDK path returns no result and its reason, after at most one
    generation call, and neither prints nor posts. *)
Lemma try_genai_library_fails (model prompt api_key reason : string)
    (sdk : option genai) :
  sdk_fails model prompt sdk reason ->
  exists t_sdk,
    try_genai_library sdk model prompt api_key
    = (t_sdk, Ok (none, Some reason))
    /\ stdout t_sdk = []
    /\ filter is_post t_sdk = []
    /\ (List.length (filter is_generation t_sdk) <= 1)%nat.
Proof.
  intros [ | g e Hc | g call e Hc He | g call e Hn Hc Ht He | g Hn Hc Ht ];
    unfold try_genai_library, client_call, text_call in *.
  - exists []. cbn. auto.
  - exists [SdkClient]. rewrite Hc. cbn. auto.
  - exists [SdkClient; SdkGenerateContent model prompt].
    destruct (Client g) as [[[[[[gc|]]|]]|e']|]; try discriminate Hc.
    injection Hc as ->. cbn. rewrite He. cbn. auto.
  - destruct (Text g) as [[[tc|]]|]; try discriminate Ht.
    injection Ht as ->.
    destruct (Client g) as [[[[[[gc|]]|]]|e']|]; try discriminate Hc;
      try (now destruct (Hn e'));
      [exists [SdkClient; SdkTextGenerate model prompt]
      |exists [SdkClient; SdkTextGenerate model prompt]
      |exists [SdkTextGenerate model prompt]];
      cbn; rewrite He; cbn; auto.
  - destruct (Client g) as [[[[[[gc|]]|]]|e']|]; try discriminate Hc;
      try (now destruct (Hn e'));
      [exists [SdkClient] | exists [SdkClient] | exists []];
      destruct (Text g) as [[[tc|]]|]; try discriminate Ht; cbn; auto.
Qed.

(** The SDK path never raises: what it catches becomes a reason. *)
Lemma try_genai_library_returns (sdk : option genai)
    (model prompt api_key : string) :
  exists t tried, try_genai_library sdk model prompt api_key = (t, Ok tried).
Proof.
  unfold try_genai_library. destruct sdk as [g|]; [| eexists; eexists; reflexivity].
  match goal with
  | |- exists t tried, try_except ?m ?h = _ =>
      destruct m as [t [tried | e]]; cbn; eexists; eexists; reflexivity
  end.
Qed.

(** With a credential, the Prompt Runner returns 0 or 3, and 3 only when the
    fallback raises: [requests] cannot be imported, or the POST raises. *)
Lemma prompt_runner_exit_codes (split_chunks : string -> list string)
    (api_key model prompt : string) (sdk : option genai)
    (requests : option (string -> value -> Z -> post_result)) :
  api_key <> "" ->
  let run := main split_chunks (Some api_key) model prompt sdk requests in
  result run = Ok 0
  \/ (result run = Ok 3
      /\ match requests with
         | None => True
         | Some requests_post =>
             exists exc,
               requests_post (url model api_key) (payload prompt) 20
               = PostRaises exc
         end).
Proof.
  intros Hkey run. subst run.
  destruct api_key as [|c k]; [contradiction |].
  unfold main.
  destruct (try_genai_library_returns sdk model prompt (String c k))
    as (t & [res err] & ->).
  destruct ((match err with None => true | Some _ => false end)
            && negb (is_none res)) eqn:Etaken.
  - left.
    destruct (shorten_4000_returns split_chunks (str_of res)) as [shown Hs].
    cbn -[textwrap.shorten str_of]. rewrite Etaken.
    cbn -[textwrap.shorten str_of]. rewrite Hs. reflexivity.
  - cbn -[textwrap.shorten str fallback_rest]. rewrite Etaken.
    unfold fallback_rest.
    destruct requests as [requests_post |]; [| right; split; [reflexivity | exact I]].
    destruct (requests_post _ _ _) as [exc | resp] eqn:Epost.
    + right. split; [reflexivity | now exists exc].
    + left.
      destruct (shorten_4000_returns split_chunks
                  (str (match json resp with
                        | Some data => data
                        | None => VStr (text resp)
                        end))) as [shown Hs].
      destruct (json resp) as [data|]; cbn -[textwrap.shorten str];
        rewrite Hs; reflexivity.
Qed.

(** C6: with a credential, each failure of the SDK path (library not
    importable, no known call shape, a call raising) is handled the same
    way: its reason is printed and [fallback_rest] is called, once.  The SDK
    made at most one generation call and is not called again.  The exit
    code is 0 when the POST returns a response, whatever its status and
    body, and 3 when the fallback raises (the POST raises, or [requests]
    cannot be imported). *)
Theorem sdk_failure_falls_back_to_rest
    (split_chunks : string -> list string)
    (api_key model prompt reason : string) (sdk : option genai)
    (requests : option (string -> value -> Z -> post_result)) :
  api_key <> "" ->
  sdk_fails model prompt sdk reason ->
  let run := main split_chunks (Some api_key) model prompt sdk requests in
  let not_used :=
    Print ("google-genai not used: " ++ reason
           ++ ". Falling back to REST endpoint...") in
  let post := HttpPost (url model api_key) (payload prompt) 20 in
  exists t_sdk,
    stdout t_sdk = []
    /\ filter is_post t_sdk = []
    /\ (List.length (filter is_generation t_sdk) <= 1)%nat
    /\ match requests with
       | None =>
           run = ((Print ("Using model: " ++ model) :: t_sdk)
                    ++ [not_used;
                        Print "REST request failed: No module named 'requests'"],
                  Ok 3)%list
       | Some requests_post =>
           match requests_post (url model api_key) (payload prompt) 20 with
           | PostRaises exc =>
               run = ((Print ("Using model: " ++ model) :: t_sdk)
                        ++ [not_used; post;
                            Print ("REST request failed: " ++ exn_str exc)],
                      Ok 3)%list
           | PostReturns resp =>
               exists shown,
                 textwrap.shorten split_chunks
                   (str (match json resp with
                         | Some data => data
                         | None => VStr (text resp)
                         end)) 4000 = Ok shown
                 /\ run = ((Print ("Using model: " ++ model) :: t_sdk)
                             ++ [not_used; post;
                                 Print "--- Result (REST fallback) ---";
                                 Print shown],
                           Ok 0)%list
           end
       end.
Proof.
  intros Hkey Hfails run not_used post. subst run not_used post.
  destruct (try_genai_library_fails model prompt api_key reason sdk Hfails)
    as (t_sdk & Htry & Hout & Hpost & Hgen).
  exists t_sdk. repeat split; try assumption.
  destruct api_key as [|c k]; [contradiction |].
  unfold main. rewrite Htry.
  destruct requests as [requests_post |].
  - unfold fallback_rest.
    destruct (requests_post _ _ _) as [exc | resp].
    + cbn. rewrite ?app_nil_r. reflexivity.
    + destruct (shorten_4000_returns split_chunks
                  (str (match json resp with
                        | Some data => data
                        | None => VStr (text resp)
                        end))) as [shown Hshown].
      exists shown. split; [exact Hshown |].
      destruct (json resp) as [data|]; cbn -[textwrap.shorten str];
        rewrite Hshown; cbn; rewrite ?app_nil_r; reflexivity.
  - cbn. rewrite ?app_nil_r. reflexivity.
Qed.

Lemma sdk_failure_witness :
  exists t_sdk,
    stdout t_sdk = []
    /\ filter is_post t_sdk = []
    /\ (List.length (filter is_generation t_sdk) <= 1)%nat
    /\ exists shown,
         textwrap.shorten textwrap.simple_chunks
           (str (VDict [("error", VDict [("code", VInt 400)])])) 4000
         = Ok shown
         /\ main textwrap.simple_chunks (Some "AIzaSyExample")
              "gemini-2.5-flash" "Explain AI in a few words" None
              (Some (fun _ _ _ =>
                       PostReturns
                         (Response 400 "bad request"
                            (Some (VDict [("error",
                                           VDict [("code", VInt 400)])])))))
            = ((Print "Using model: gemini-2.5-flash" :: t_sdk)
                 ++ [Print "google-genai not used: google-genai library not available. Falling back to REST endpoint...";
                     HttpPost (url "gemini-2.5-flash" "AIzaSyExample")
                       (payload "Explain AI in a few words") 20;
                     Print "--- Result (REST fallback) ---";
                     Print shown],
               Ok 0)%list.
Proof.
  apply (sdk_failure_falls_back_to_rest textwrap.simple_chunks
           "AIzaSyExample" "gemini-2.5-flash" "Explain AI in a few words"
           "google-genai library not available" None
           (Some (fun _ _ _ =>
                    PostReturns
                      (Response 400 "bad request"
                         (Some (VDict [("error",
                                        VDict [("code", VInt 400)])])))))).
  - discriminate.
  - constructor.
Defined.

(** ** Truncation *)

(** *** [short] *)

Lemma short_within (s : string) (bound : Z) :
  len s <= bound -> short s bound = s.
Proof.
  intros H. unfold short. now rewrite (proj2 (Z.leb_le _ _) H).
Qed.

Lemma short_beyond (s : string) (bound : Z) :
  0 <= bound -> bound < len s ->
  short s bound = slice_to s bound ++ "..."
  /\ len (slice_to s bound) = bound
  /\ len (short s bound) = bound + 3.
Proof.
  intros H0 H. unfold short.
  rewrite (proj2 (Z.leb_gt _ _) H).
  assert (Hs : len (slice_to s bound) = bound) by (apply len_slice_to; lia).
  repeat split; [exact Hs |].
  rewrite len_append, Hs. reflexivity.
Qed.

(** *** [textwrap.shorten] *)

Import textwrap.

Lemma sum_len_nonneg (l : list string) : 0 <= sum_len l.
Proof.
  induction l as [|s l IH]; simpl; [lia |]. pose proof (len_nonneg s). lia.
Qed.

Lemma sum_len_app (a b : list string) :
  sum_len (a ++ b) = sum_len a + sum_len b.
Proof. induction a as [|s a IH]; simpl; lia. Qed.

Lemma sum_len_rev (l : list string) : sum_len (rev l) = sum_len l.
Proof.
  induction l as [|s l IH]; simpl; [reflexivity |].
  rewrite sum_len_app, IH. simpl. lia.
Qed.

Lemma join_empty_cons (s : string) (l : list string) :
  join "" (s :: l) = s ++ join "" l.
Proof.
  destruct l as [|s' l]; [now rewrite append_empty_r | reflexivity].
Qed.

Lemma len_join_empty (l : list string) : len (join "" l) = sum_len l.
Proof.
  induction l as [|s l IH]; [reflexivity |].
  rewrite join_empty_cons, len_append, IH. reflexivity.
Qed.

Lemma fill_line_sum (width : Z) (chunks cur_line : list string) (cur_len : Z)
    (chunks' cur_line' : list string) (cur_len' : Z) :
  fill_line width chunks cur_line cur_len = (chunks', cur_line', cur_len') ->
  cur_len = sum_len cur_line -> cur_len' = sum_len cur_line'.
Proof.
  revert cur_line cur_len.
  induction chunks as [|c rest IH]; intros cur_line cur_len H Hsum.
  - injection H as _ <- <-. exact Hsum.
  - cbn [fill_line] in H. destruct (cur_len + len c <=? width).
    + apply IH in H; [exact H | simpl; lia].
    + injection H as _ <- <-. exact Hsum.
Qed.

(** The line that [add_placeholder] adds to no earlier line fits. *)
Lemma add_placeholder_fits (width : Z) (cur_line : list string) :
  len (lstrip placeholder) <= width ->
  exists line,
    add_placeholder width cur_line (sum_len cur_line) [] = [line]
    /\ len line <= width.
Proof.
  intros Hw. induction cur_line as [|last before IH].
  - exists (lstrip placeholder). split; [reflexivity | exact Hw].
  - cbn [add_placeholder].
    destruct (negb (blank last) && (sum_len (last :: before) + len placeholder <=? width))
      eqn:E.
    + eexists. split; [reflexivity |].
      apply andb_prop in E. destruct E as [_ E]. apply Z.leb_le in E.
      rewrite len_join_empty, sum_len_rev. cbn [sum_len] in *. lia.
    + replace (sum_len (last :: before) - len last) with (sum_len before)
        by (cbn [sum_len]; lia).
      exact IH.
Qed.

Lemma wrap_loop_one_line (width : Z) (fuel : nat) :
  len (lstrip placeholder) <= width ->
  forall chunks lines result,
    one_line_left width chunks lines ->
    wrap_loop fuel width chunks lines = Some result ->
    one_line_within width result.
Proof.
  intros Hw. induction fuel as [|fuel IH]; intros chunks lines result Hinv H;
    [discriminate H |].
  destruct chunks as [|first rest].
  - injection H as <-.
    destruct Hinv as [-> | (line & -> & Hl & _)]; [now left | right; eauto].
  - cbn [wrap_loop] in H.
    destruct Hinv as [-> | (line & -> & Hl & [Hc | (c & Hc & Hb)])];
      [| discriminate Hc |].
    + (* no line yet *)
      rewrite andb_false_r in H.
      destruct (fill_line width (first :: rest) [] 0)
        as [[chunks2 cur_line2] cur_len2] eqn:Efill.
      apply fill_line_sum in Efill; [| reflexivity].
      set (placed :=
             match chunks2 with
             | [] => (chunks2, cur_line2, cur_len2)
             | c :: _ =>
                 if width <? len c
                 then let '(chunks', cur_line') :=
                        handle_long_word chunks2 cur_line2 cur_len2 width in
                      (chunks', cur_line', sum_len cur_line')
                 else (chunks2, cur_line2, cur_len2)
             end) in H.
      assert (Hplaced : snd placed = sum_len (snd (fst placed))).
      { subst placed. destruct chunks2 as [|c ?]; [exact Efill |].
        destruct (width <? len c); [| exact Efill].
        destruct (handle_long_word _ _ _ _). reflexivity. }
      destruct placed as [[chunks3 cur_line3] cur_len3]. cbn [fst snd] in Hplaced.
      set (kept :=
             match cur_line3 with
             | [] => (cur_line3, cur_len3)
             | last :: before =>
                 if blank last then (before, cur_len3 - len last)
                 else (cur_line3, cur_len3)
             end) in H.
      assert (Hkept : snd kept = sum_len (fst kept)).
      { subst kept. destruct cur_line3 as [|last before]; [exact Hplaced |].
        destruct (blank last); [| exact Hplaced].
        cbn [fst snd]. cbn [sum_len] in Hplaced. lia. }
      destruct kept as [cur_line4 cur_len4]. cbn [fst snd] in Hkept.
      destruct cur_line4 as [|l4 b4].
      * apply (IH _ _ _ (or_introl eq_refl) H).
      * change (Z.of_nat (List.length (@nil string)) + 1 <? max_lines)
          with false in H.
        rewrite orb_false_l in H.
        destruct ((match chunks3 with
                   | [] => true
                   | [c] => blank c
                   | _ :: _ :: _ => false
                   end) && (cur_len4 <=? width)) eqn:Efit.
        -- apply andb_prop in Efit. destruct Efit as [Hleft Hfit].
           apply Z.leb_le in Hfit.
           refine (IH _ _ _ _ H). right.
           eexists. split; [reflexivity |]. split.
           ++ rewrite len_join_empty, sum_len_rev. lia.
           ++ destruct chunks3 as [|c [|c' ?]]; [now left | | discriminate].
              right. eauto.
        -- injection H as <-.
           change (one_line_within width
                     (add_placeholder width (l4 :: b4) cur_len4 [])).
           subst cur_len4.
           destruct (add_placeholder_fits width (l4 :: b4) Hw)
             as (line & -> & Hline).
           right. eauto.
    + (* one line, and a chunk of whitespace left *)
      injection Hc as -> ->. rewrite Hb in H. cbn in H.
      apply (IH [] [line] result); [| exact H].
      right. eauto.
Qed.

Lemma length_drop (k : nat) (s : string) :
  String.length (substring k (String.length s - k) s)
  = (String.length s - k)%nat.
Proof.
  revert k. induction s as [|c s IH]; intros [|k]; try reflexivity.
  - simpl. f_equal. rewrite length_take; lia.
  - simpl. apply IH.
Qed.

Lemma len_slice_from (s : string) (n : Z) :
  len (slice_from s n) <= len s
  /\ (1 <= n -> 1 <= len s -> len (slice_from s n) < len s).
Proof.
  unfold slice_from, len. rewrite length_drop. split; [lia |].
  intros Hn Hs. destruct (0 <=? n) eqn:E; lia.
Qed.

Lemma weight_cons (c : string) (rest : list string) :
  weight (c :: rest) = (S (weight rest) + Z.to_nat (len c))%nat.
Proof.
  unfold weight. cbn [List.length sum_len].
  pose proof (len_nonneg c). pose proof (sum_len_nonneg rest). lia.
Qed.

Lemma fill_line_weight (width : Z) (chunks cur_line : list string)
    (cur_len : Z) (chunks' cur_line' : list string) (cur_len' : Z) :
  fill_line width chunks cur_line cur_len = (chunks', cur_line', cur_len') ->
  (chunks' = chunks /\ cur_len' = cur_len
   /\ match chunks with
      | [] => True
      | c :: _ => width < cur_len + len c
      end)
  \/ (weight chunks' < weight chunks)%nat.
Proof.
  revert cur_line cur_len.
  induction chunks as [|c rest IH]; intros cur_line cur_len H.
  - injection H as <- _ <-. left. auto.
  - cbn [fill_line] in H. destruct (cur_len + len c <=? width) eqn:E.
    + right. rewrite weight_cons.
      destruct (IH _ _ H) as [(-> & _) | Hlt]; lia.
    + injection H as <- _ <-. left. apply Z.leb_gt in E. auto.
Qed.

Lemma rfind_hyphen_from_bounds (s : string) (i stop found : Z) :
  found < i -> found <= rfind_hyphen_from s i stop found.
Proof.
  revert i found. induction s as [|c s IH]; intros i found H; cbn; [lia |].
  destruct (i <? stop); [| lia].
  destruct (Ascii.eqb c "-"); [| apply IH; lia].
  specialize (IH (i + 1) i). lia.
Qed.

Lemma handle_long_word_weight (c : string) (rest cur_line : list string)
    (cur_len width : Z) :
  let chunks' := fst (handle_long_word (c :: rest) cur_line cur_len width) in
  (weight chunks' <= weight (c :: rest))%nat
  /\ (1 <= width -> cur_len = 0 -> width < len c ->
      (weight chunks' < weight (c :: rest))%nat).
Proof.
  cbn [handle_long_word fst].
  set (space_left := if width <? 1 then 1 else width - cur_len).
  set (hyphen := rfind_hyphen c space_left).
  set (end_ := if (space_left <? len c) && (0 <? hyphen)
                  && any_not_hyphen (slice_to c hyphen)
               then hyphen + 1 else space_left).
  destruct (len_slice_from c end_) as [Hle Hlt].
  pose proof (len_nonneg (slice_from c end_)).
  rewrite !weight_cons. split; [lia |].
  intros Hw H0 Hlong.
  assert (1 <= end_).
  { subst end_ space_left.
    destruct (width <? 1) eqn:E; [apply Z.ltb_lt in E; lia |].
    destruct (_ && _) eqn:E'; [| lia].
    apply andb_prop in E'. destruct E' as [E' _].
    apply andb_prop in E'. destruct E' as [_ E']. apply Z.ltb_lt in E'. lia. }
  specialize (Hlt ltac:(lia) ltac:(lia)). lia.
Qed.

Lemma wrap_loop_ends (width : Z) (fuel : nat) :
  1 <= width ->
  forall chunks lines,
    (weight chunks < fuel)%nat ->
    exists result, wrap_loop fuel width chunks lines = Some result.
Proof.
  intros Hw. induction fuel as [|fuel IH]; intros chunks lines Hfuel; [lia |].
  destruct chunks as [|first rest]; [eexists; reflexivity |].
  cbn [wrap_loop].
  set (chunks1 := if blank first && negb (Nat.eqb (List.length lines) 0)
                  then rest else first :: rest).
  assert (H1 : chunks1 = first :: rest
               \/ (weight chunks1 < weight (first :: rest))%nat).
  { subst chunks1. destruct (_ && _); [right | now left].
    rewrite weight_cons. lia. }
  clearbody chunks1.
  destruct (fill_line width chunks1 [] 0)
    as [[chunks2 cur_line2] cur_len2] eqn:Efill.
  apply fill_line_weight in Efill.
  set (placed :=
         match chunks2 with
         | [] => (chunks2, cur_line2, cur_len2)
         | c :: _ =>
             if width <? len c
             then let '(chunks', cur_line') :=
                    handle_long_word chunks2 cur_line2 cur_len2 width in
                  (chunks', cur_line', sum_len cur_line')
             else (chunks2, cur_line2, cur_len2)
         end).
  assert (Hplaced : (weight (fst (fst placed)) < weight (first :: rest))%nat).
  { subst placed. destruct chunks2 as [|c rest2].
    - cbn [fst]. destruct Efill as [(E & _) | Hlt].
      + destruct H1 as [H1 | H1]; [congruence | rewrite E; exact H1].
      + destruct H1 as [H1 | H1]; [rewrite <- H1 | ]; lia.
    - pose proof (handle_long_word_weight c rest2 cur_line2 cur_len2 width)
        as [Hle Hlt].
      destruct Efill as [(E & E0 & Hbig) | Hdec].
      + rewrite <- E in Hbig.
        assert (Hlong : (width <? len c) = true) by (apply Z.ltb_lt; lia).
        rewrite Hlong.
        destruct (handle_long_word (c :: rest2) cur_line2 cur_len2 width)
          as [chunks' cur_line'] eqn:Eh.
        cbn [fst] in *. specialize (Hlt Hw E0 ltac:(lia)).
        destruct H1 as [H1 | H1]; [rewrite <- H1, <- E | rewrite <- E in H1];
          lia.
      + assert (Hbelow : (weight (c :: rest2) < weight (first :: rest))%nat).
        { destruct H1 as [H1 | H1]; [rewrite <- H1 | ]; lia. }
        destruct (width <? len c); [| exact Hbelow].
        destruct (handle_long_word (c :: rest2) cur_line2 cur_len2 width)
          as [chunks' cur_line'] eqn:Eh.
        cbn [fst] in *. lia. }
  destruct placed as [[chunks3 cur_line3] cur_len3]. cbn [fst] in Hplaced.
  destruct (match cur_line3 with
            | [] => (cur_line3, cur_len3)
            | last :: before =>
                if blank last then (before, cur_len3 - len last)
                else (cur_line3, cur_len3)
            end) as [cur_line4 cur_len4].
  destruct cur_line4 as [|l4 b4]; [apply IH; lia |].
  destruct (_ || _); [apply IH; lia | eexists; reflexivity].
Qed.

(** [_wrap_chunks] returns the lines of the loop, of which there is at most
    one, within the width. *)
Lemma wrap_chunks_one_line (width : Z) (chunks : list string) :
  len (lstrip placeholder) <= width ->
  exists lines,
    wrap_loop (enough_fuel chunks) width chunks [] = Some lines
    /\ wrap_chunks width chunks = Ok (rev lines)
    /\ one_line_within width lines.
Proof.
  intros Hw.
  assert (H5 : len (lstrip placeholder) = 5) by reflexivity.
  destruct (wrap_loop_ends width (enough_fuel chunks) ltac:(lia) chunks [])
    as [lines Hlines]; [unfold enough_fuel, weight; lia |].
  exists lines. split; [exact Hlines |]. split.
  - unfold wrap_chunks. rewrite Hlines.
    rewrite (proj2 (Z.leb_gt width 0)) by lia.
    rewrite (proj2 (Z.ltb_ge width _)) by lia. reflexivity.
  - apply (wrap_loop_one_line width (enough_fuel chunks) Hw chunks [] lines);
      [now left | exact Hlines].
Qed.

(** [shorten] returns a string within the width, for every width that has
    room for the placeholder. *)
Lemma shorten_within_width (split_chunks : string -> list string)
    (text : string) (width : Z) :
  len (lstrip placeholder) <= width ->
  exists shown, shorten split_chunks text width = Ok shown
                /\ len shown <= width.
Proof.
  intros Hw. unfold shorten.
  destruct (wrap_chunks_one_line width
              (split_chunks (join " " (split (rstrip (lstrip text))))) Hw)
    as (lines & _ & -> & [-> | (line & -> & Hline)]).
  - exists "". split; [reflexivity |].
    assert (H5 : len (lstrip placeholder) = 5) by reflexivity.
    change (len "") with 0. lia.
  - exists line. split; [reflexivity | exact Hline].
Qed.


(** *** A text that fits is returned with its whitespace collapsed *)

Lemma ends_nonspace_append (a b : string) :
  b <> "" -> ends_nonspace (a ++ b) = ends_nonspace b.
Proof.
  intros Hb. induction a as [|c a IH]; [reflexivity |].
  cbn [append ends_nonspace]. rewrite IH.
  destruct (a ++ b) eqn:E; [| reflexivity].
  destruct a; [contradiction | discriminate E].
Qed.

Lemma blank_ends_space (b : string) :
  blank b = true -> b <> "" -> ends_nonspace b = false.
Proof.
  induction b as [|c b IH]; intros Hblank Hne; [contradiction |].
  cbn [blank] in Hblank. apply andb_prop in Hblank. destruct Hblank as [Hc Hb].
  destruct b as [|c' b']; cbn [ends_nonspace].
  - now rewrite Hc.
  - apply IH; [exact Hb | discriminate].
Qed.

Lemma is_word_add (w : string) (c : ascii) :
  isspace c = false -> is_word (w ++ String c EmptyString).
Proof.
  intros Hc. split.
  - destruct w; discriminate.
  - rewrite ends_nonspace_append by discriminate. cbn. now rewrite Hc.
Qed.

Lemma split_from_words (s : string) :
  forall cur,
    match cur with Some w => is_word w | None => True end ->
    Forall is_word (split_from cur s).
Proof.
  induction s as [|c s IH]; intros cur Hcur; cbn [split_from].
  - destruct cur; constructor; [exact Hcur | constructor].
  - destruct (isspace c) eqn:Hc.
    + destruct cur; [constructor; [exact Hcur |] |]; now apply IH.
    + apply IH. now apply is_word_add.
Qed.

Lemma join_words_nonempty (w : string) (ws : list string) :
  is_word w -> join " " (w :: ws) <> "".
Proof.
  intros [Hw _]. cbn [join].
  destruct ws; destruct w; try contradiction; discriminate.
Qed.

Lemma join_words_ends_nonspace (ws : list string) :
  Forall is_word ws -> ends_nonspace (join " " ws) = true.
Proof.
  induction 1 as [|w ws Hw Hws IH]; [reflexivity |].
  destruct ws as [|w' ws']; [exact (proj2 Hw) |].
  change (join " " (w :: w' :: ws'))
    with (w ++ String " " (join " " (w' :: ws'))).
  rewrite ends_nonspace_append by discriminate.
  cbn [ends_nonspace].
  inversion Hws as [|? ? Hw' _]; subst.
  destruct (join " " (w' :: ws')) eqn:E; [| exact IH].
  now destruct (join_words_nonempty w' ws' Hw').
Qed.

(** A collapsed text ends with no whitespace. *)
Lemma collapsed_ends_nonspace (text a b : string) :
  join " " (split text) = a ++ b -> blank b = true -> b = "".
Proof.
  intros Heq Hblank.
  destruct b as [|c b]; [reflexivity |].
  pose proof (join_words_ends_nonspace (split text)
                (split_from_words text None I)) as Hends.
  rewrite Heq, ends_nonspace_append in Hends by discriminate.
  rewrite blank_ends_space in Hends; [discriminate | exact Hblank | discriminate].
Qed.

Lemma fill_line_all (width : Z) (chunks : list string) :
  forall cur_line cur_len,
    cur_len + sum_len chunks <= width ->
    fill_line width chunks cur_line cur_len
    = ([], (rev chunks ++ cur_line)%list, cur_len + sum_len chunks).
Proof.
  induction chunks as [|c rest IH]; intros cur_line cur_len H.
  - cbn. now rewrite Z.add_0_r.
  - cbn [fill_line sum_len rev] in *.
    pose proof (sum_len_nonneg rest).
    rewrite (proj2 (Z.leb_le _ _)) by lia.
    rewrite IH by lia. rewrite <- app_assoc. cbn [app].
    f_equal. lia.
Qed.

Lemma join_empty_app (a b : list string) :
  join "" (a ++ b) = join "" a ++ join "" b.
Proof.
  induction a as [|s a IH]; [reflexivity |].
  cbn [app]. rewrite !join_empty_cons, IH.
  induction s as [|c s IHs]; [reflexivity | cbn; now rewrite IHs].
Qed.

(** When the chunks are the collapsed text cut in pieces and the text fits,
    [shorten] returns the collapsed text. *)
Lemma shorten_returns_fitting_text (split_chunks : string -> list string)
    (text : string) (width : Z) :
  let collapsed := join " " (split (rstrip (lstrip text))) in
  len (lstrip placeholder) <= width ->
  join "" (split_chunks collapsed) = collapsed ->
  len collapsed <= width ->
  shorten split_chunks text width = Ok collapsed.
Proof.
  intros collapsed Hw Hcut Hfits. unfold shorten. fold collapsed.
  destruct (wrap_chunks_one_line width (split_chunks collapsed) Hw)
    as (lines & Hloop & -> & _).
  assert (Hsum : sum_len (split_chunks collapsed) = len collapsed)
    by (now rewrite <- len_join_empty, Hcut).
  revert Hloop.
  destruct (split_chunks collapsed) as [|first rest] eqn:Echunks.
  { intros [= <-]. cbn in Hcut. now rewrite <- Hcut. }
  unfold enough_fuel. cbn [List.length Nat.add wrap_loop].
  rewrite andb_false_r, fill_line_all by lia.
  rewrite app_nil_r.
  destruct (rev (first :: rest)) as [|last before] eqn:Erev.
  { apply (f_equal (@List.length string)) in Erev.
    rewrite length_rev in Erev. discriminate Erev. }
  assert (Hparts : collapsed = join "" (rev before) ++ last).
  { rewrite <- Hcut, <- (rev_involutive (first :: rest)), Erev.
    cbn [rev]. rewrite join_empty_app. cbn [join]. reflexivity. }
  destruct (blank last) eqn:Hblank.
  - assert (Hlast : last = "")
      by (apply (collapsed_ends_nonspace _ _ _ Hparts Hblank)).
    subst last. rewrite append_empty_r in Hparts.
    destruct before as [|l4 b4].
    + intros [= <-]. now rewrite Hparts.
    + change (Z.of_nat (List.length (@nil string)) + 1 <? max_lines)
        with false.
      rewrite orb_false_l, andb_true_l.
      rewrite (proj2 (Z.leb_le _ _)) by (change (len "") with 0; lia).
      intros [= <-]. cbn [rev app join].
      now rewrite Hparts.
  - change (Z.of_nat (List.length (@nil string)) + 1 <? max_lines)
      with false.
    rewrite orb_false_l, andb_true_l.
    rewrite (proj2 (Z.leb_le _ _)) by lia.
    intros [= <-]. cbn [rev app join].
    rewrite Hparts. cbn [rev]. now rewrite join_empty_app.
Qed.

(** *** A text that does not fit is cut and ends with the marker *)

Lemma append_assoc' (a b c : string) : (a ++ b) ++ c = a ++ (b ++ c).
Proof. induction a as [|x a IH]; [reflexivity | cbn; now rewrite IH]. Qed.

Lemma len_zero_empty (s : string) : len s = 0 -> s = "".
Proof. destruct s; [reflexivity | unfold len; cbn; lia]. Qed.

Lemma prefix_not_blank (t x y : string) :
  t = x ++ y -> 0 < len x -> starts_space t = false -> blank x = false.
Proof.
  intros -> Hx Hstart. destruct x as [|c x]; [cbv in Hx; discriminate |].
  cbn in *. now rewrite Hstart.
Qed.

Lemma suffix_not_blank (t a x : string) :
  t = a ++ x -> 0 < len x -> ends_nonspace t = true -> blank x = false.
Proof.
  intros -> Hx Hend.
  assert (Hne : x <> "") by (intros ->; cbv in Hx; discriminate).
  rewrite ends_nonspace_append in Hend by exact Hne.
  destruct (blank x) eqn:E; [| reflexivity].
  rewrite (blank_ends_space x E Hne) in Hend. discriminate.
Qed.

Lemma take_drop (k : nat) (s : string) :
  substring 0 k s ++ substring k (String.length s - k) s = s.
Proof.
  revert k. induction s as [|c s IH]; intros [|k]; try reflexivity.
  - cbn. f_equal. apply take_all. lia.
  - cbn [substring String.length Nat.sub append]. f_equal. apply IH.
Qed.

Lemma slices (c : string) (e : Z) :
  0 <= e -> e <= len c ->
  slice_to c e ++ slice_from c e = c
  /\ len (slice_to c e) = e
  /\ len (slice_from c e) = len c - e.
Proof.
  intros H0 He. split; [| split].
  - unfold slice_to, slice_from. rewrite (proj2 (Z.leb_le 0 e) H0).
    apply take_drop.
  - now apply len_slice_to.
  - unfold slice_from, len in *. rewrite (proj2 (Z.leb_le 0 e) H0).
    rewrite length_drop. lia.
Qed.

Lemma rfind_hyphen_from_below (s : string) (i stop found : Z) :
  found < stop -> rfind_hyphen_from s i stop found < stop.
Proof.
  revert i found. induction s as [|c s IH]; intros i found H; cbn; [lia |].
  destruct (i <? stop) eqn:E; [| lia]. apply Z.ltb_lt in E.
  destruct (Ascii.eqb c "-"); apply IH; lia.
Qed.

(** Where [_handle_long_word] cuts: within the space left. *)
Lemma cut_bounds (chunk : string) (space_left : Z) :
  0 <= space_left ->
  let hyphen := rfind_hyphen chunk space_left in
  let end_ := if (space_left <? len chunk) && (0 <? hyphen)
                 && any_not_hyphen (slice_to chunk hyphen)
              then hyphen + 1 else space_left in
  0 <= end_ <= space_left /\ (1 <= space_left -> 1 <= end_).
Proof.
  intros H0 hyphen end_. subst end_.
  assert (hyphen < space_left)
    by (apply rfind_hyphen_from_below; lia).
  destruct (_ && _) eqn:E; [| lia].
  apply andb_prop in E. destruct E as [E _].
  apply andb_prop in E. destruct E as [_ E]. apply Z.ltb_lt in E. lia.
Qed.

(** [fill_line] moves chunks from [chunks] onto [cur_line], stays within
    the width, and stops at a chunk that does not fit. *)
Lemma fill_line_parts (width : Z) (chunks cur_line : list string)
    (cur_len : Z) (chunks' cur_line' : list string) (cur_len' : Z) :
  fill_line width chunks cur_line cur_len = (chunks', cur_line', cur_len') ->
  cur_len <= width ->
  (rev cur_line' ++ chunks' = rev cur_line ++ chunks)%list
  /\ cur_len' <= width
  /\ match chunks' with
     | [] => True
     | c :: _ => width < cur_len' + len c
     end.
Proof.
  revert cur_line cur_len.
  induction chunks as [|c rest IH]; intros cur_line cur_len H Hle.
  - injection H as <- <- <-. auto.
  - cbn [fill_line] in H. destruct (cur_len + len c <=? width) eqn:E.
    + apply Z.leb_le in E. destruct (IH _ _ H E) as (Hp & Hl & Hs).
      cbn [rev] in Hp. rewrite <- app_assoc in Hp. auto.
    + apply Z.leb_gt in E. injection H as <- <- <-. auto.
Qed.

(** The truncated line is the marker alone, or a beginning of the line
    that was being filled, a space and the marker. *)
Lemma add_placeholder_marker (width : Z) (cur_line : list string) :
  forall cur_len,
  exists head,
    add_placeholder width cur_line cur_len [] = [head ++ "[...]"]
    /\ (head = ""
        \/ exists kept dropped,
             head = kept ++ " "
             /\ join "" (rev cur_line) = kept ++ dropped).
Proof.
  induction cur_line as [|last before IH]; intros cur_len.
  - exists "". split; [reflexivity | now left].
  - cbn [add_placeholder].
    destruct (negb (blank last) && (cur_len + len placeholder <=? width)).
    + exists (join "" (rev (last :: before)) ++ " "). split.
      * change (rev (placeholder :: last :: before))
          with (rev (last :: before) ++ [placeholder])%list.
        rewrite join_empty_app, append_assoc'. reflexivity.
      * right. exists (join "" (rev (last :: before))), "".
        now rewrite append_empty_r.
    + destruct (IH (cur_len - len last)) as (head & Hadd & Hhead).
      exists head. split; [exact Hadd |].
      destruct Hhead as [-> | (kept & dropped & -> & Hkept)]; [now left |].
      right. exists kept, (dropped ++ last). split; [reflexivity |].
      cbn [rev]. rewrite join_empty_app, Hkept. cbn [join].
      now rewrite append_assoc'.
Qed.

Lemma split_from_starts (s : string) :
  forall cur,
    match cur with
    | Some w => w <> "" /\ starts_space w = false
    | None => True
    end ->
    Forall (fun w => w <> "" /\ starts_space w = false) (split_from cur s).
Proof.
  induction s as [|c s IH]; intros cur Hcur; cbn [split_from].
  - destruct cur; constructor; [exact Hcur | constructor].
  - destruct (isspace c) eqn:Hc.
    + destruct cur; [constructor; [exact Hcur |] |]; now apply IH.
    + apply IH. destruct cur as [[|c' w]|]; cbn.
      * now destruct Hcur.
      * split; [discriminate | exact (proj2 Hcur)].
      * split; [discriminate | exact Hc].
Qed.

(** A collapsed text starts with no whitespace. *)
Lemma collapsed_starts_nonspace (text : string) :
  starts_space (join " " (split text)) = false.
Proof.
  pose proof (split_from_starts text None I) as H. unfold split.
  destruct (split_from None text) as [|w ws]; [reflexivity |].
  inversion H as [|? ? [Hne Hw] _]; subst.
  destruct w as [|c w]; [contradiction |].
  destruct ws; exact Hw.
Qed.

(** With a text that does not fit, the first pass of the loop ends it, with
    the truncated line. *)
Lemma first_pass_cuts (width : Z) (fuel : nat) (chunks : list string)
    (t : string) :
  1 <= width ->
  join "" chunks = t ->
  starts_space t = false -> ends_nonspace t = true ->
  width < len t ->
  exists cur_line cur_len rest,
    wrap_loop (S fuel) width chunks []
    = Some (add_placeholder width cur_line cur_len [])
    /\ t = join "" (rev cur_line) ++ rest.
Proof.
  intros Hw Ht Hstart Hend Hlong.
  assert (Hsum : sum_len chunks = len t)
    by (now rewrite <- len_join_empty, Ht).
  destruct chunks as [|first rest]; [cbn in Hsum; lia |].
  cbn [wrap_loop]. rewrite andb_false_r.
  destruct (fill_line width (first :: rest) [] 0)
    as [[chunks2 cl2] n2] eqn:Efill.
  pose proof (fill_line_sum _ _ _ _ _ _ _ Efill eq_refl) as Hn2.
  destruct (fill_line_parts _ _ _ _ _ _ _ Efill ltac:(lia))
    as (Hparts & Hn2le & Hstop).
  cbn [rev app] in Hparts.
  destruct chunks2 as [|c rest2].
  { rewrite app_nil_r in Hparts.
    rewrite <- Hparts, sum_len_rev in Hsum. lia. }
  assert (Htext : t = join "" (rev cl2) ++ (c ++ join "" rest2)).
  { rewrite <- Ht, <- Hparts, join_empty_app, join_empty_cons. reflexivity. }
  pose proof (sum_len_nonneg cl2) as Hcl2.
  pose proof (len_nonneg c) as Hc0.
  assert (Hleft : forall x a,
             0 < len x -> (rest2 = [] -> t = a ++ x) ->
             match rest2 with [] => blank x | _ :: _ => false end = false).
  { intros x a Hx Ha. destruct rest2; [| reflexivity].
    exact (suffix_not_blank t a x (Ha eq_refl) Hx Hend). }
  assert (Hmax : (Z.of_nat (List.length (@nil string)) + 1 <? max_lines)
                 = false) by reflexivity.
  destruct (width <? len c) eqn:Elong.
  - apply Z.ltb_lt in Elong.
    cbn [handle_long_word].
    rewrite (proj2 (Z.ltb_ge width 1)) by lia.
    pose proof (cut_bounds c (width - n2) ltac:(lia)) as Hcut.
    cbv zeta in Hcut.
    set (hyphen := rfind_hyphen c (width - n2)) in *.
    set (end_ := if (width - n2 <? len c) && (0 <? hyphen)
                    && any_not_hyphen (slice_to c hyphen)
                 then hyphen + 1 else width - n2) in *.
    destruct Hcut as [Hend_ Hend1].
    destruct (slices c end_ ltac:(lia) ltac:(lia)) as (Hcat & Hto & Hfrom).
    assert (Hrest : match rest2 with
                    | [] => blank (slice_from c end_)
                    | _ :: _ => false
                    end = false).
    { apply (Hleft _ (join "" (rev cl2) ++ slice_to c end_)); [lia |].
      intros ->. rewrite Htext, append_assoc'. cbn [join].
      now rewrite append_empty_r, Hcat. }
    rewrite Hmax, Hrest.
    destruct (blank (slice_to c end_)) eqn:Eb.
    + destruct cl2 as [|b cl2'].
      * exfalso. cbn [sum_len] in Hn2. subst n2.
        rewrite (prefix_not_blank t (slice_to c end_)
                   (slice_from c end_ ++ join "" rest2)) in Eb;
          [discriminate | | lia | exact Hstart].
        rewrite Htext. cbn [rev join append].
        now rewrite <- append_assoc', Hcat.
      * exists (b :: cl2'). eexists. exists (c ++ join "" rest2).
        split; [reflexivity | exact Htext].
    + exists (slice_to c end_ :: cl2). eexists.
      exists (slice_from c end_ ++ join "" rest2).
      split; [reflexivity |].
      rewrite Htext. cbn [rev]. rewrite join_empty_app. cbn [join].
      rewrite !append_assoc'. f_equal.
      rewrite <- append_assoc'. now rewrite Hcat.
  - apply Z.ltb_ge in Elong.
    destruct cl2 as [|b cl2'].
    { exfalso. cbn [sum_len] in Hn2. lia. }
    assert (Hrest : match rest2 with
                    | [] => blank c
                    | _ :: _ => false
                    end = false).
    { apply (Hleft _ (join "" (rev (b :: cl2')))); [lia |].
      intros ->. rewrite Htext. cbn [join]. now rewrite append_empty_r. }
    rewrite Hmax, Hrest.
    destruct (blank b) eqn:Eb.
    + destruct cl2' as [|b' cl2''].
      * exfalso. cbn [sum_len] in Hn2.
        destruct (Z.eq_dec (len b) 0) as [Hb0 | Hb0]; [lia |].
        pose proof (len_nonneg b).
        rewrite (prefix_not_blank t b (c ++ join "" rest2)) in Eb;
          [discriminate | exact Htext | lia | exact Hstart].
      * exists (b' :: cl2''). eexists. exists (b ++ (c ++ join "" rest2)).
        split; [reflexivity |].
        rewrite Htext.
        change (rev (b :: b' :: cl2'')) with (rev (b' :: cl2'') ++ [b])%list.
        rewrite join_empty_app. cbn [join]. now rewrite append_assoc'.
    + exists (b :: cl2'). eexists. exists (c ++ join "" rest2).
      split; [reflexivity | exact Htext].
Qed.

(** When the chunks are the collapsed text cut in pieces and the text does
    not fit, [shorten] returns the marker alone, or a beginning of the
    collapsed text, a space and the marker. *)
Lemma shorten_cuts_long_text (split_chunks : string -> list string)
    (text : string) (width : Z) :
  let collapsed := join " " (split (rstrip (lstrip text))) in
  len (lstrip placeholder) <= width ->
  join "" (split_chunks collapsed) = collapsed ->
  width < len collapsed ->
  exists head,
    shorten split_chunks text width = Ok (head ++ "[...]")
    /\ (head = ""
        \/ exists kept dropped,
             head = kept ++ " " /\ collapsed = kept ++ dropped).
Proof.
  intros collapsed Hw Hcut Hlong. unfold shorten. fold collapsed.
  assert (H5 : len (lstrip placeholder) = 5) by reflexivity.
  destruct (wrap_chunks_one_line width (split_chunks collapsed) Hw)
    as (lines & Hloop & -> & _).
  destruct (first_pass_cuts width
              (List.length (split_chunks collapsed)
               + Z.to_nat (sum_len (split_chunks collapsed)))
              (split_chunks collapsed) collapsed ltac:(lia) Hcut
              (collapsed_starts_nonspace _)
              (join_words_ends_nonspace _ (split_from_words _ None I))
              Hlong)
    as (cur_line & cur_len & rest & Hpass & Htext).
  unfold enough_fuel in Hloop. rewrite Hpass in Hloop.
  injection Hloop as <-.
  destruct (add_placeholder_marker width cur_line cur_len)
    as (head & -> & Hhead).
  exists head. split; [reflexivity |].
  destruct Hhead as [-> | (kept & dropped & -> & Hkept)]; [now left |].
  right. exists kept, (dropped ++ rest). split; [reflexivity |].
  now rewrite Htext, Hkept, append_assoc'.
Qed.

(** *** The three truncations *)

(** C1 as stated fails: a body of 401 characters, truncated to the bound
    400, comes out 403 characters long; and [shorten] changes a text that
    is under its bound. *)
Lemma short_output_exceeds_its_bound :
  len body_of_401_characters = 401
  /\ short body_of_401_characters 400 = replicate 400 "x" ++ "..."
  /\ len (short body_of_401_characters 400) = 403
  /\ (len (short body_of_401_characters 400) <=? 400) = false
  /\ shorten simple_chunks "Hello   world!" 4000 = Ok "Hello world!".
Proof. vm_compute. repeat split. Qed.

(** C1, amended: [short] returns a string at or under its bound unchanged,
    and cuts a longer one to its first [bound] characters followed by the
    marker "...": the output is then [bound + 3] characters long, and no
    output of [short] is longer than that (403 characters for a response
    body, 203 for a model name).  The Prompt Runner's
    [textwrap.shorten(..., 4000)] collapses the whitespace of the text and
    returns at most 4000 characters, however the text is cut into chunks;
    when the chunks are the collapsed text cut in pieces, a collapsed text
    of at most 4000 characters is returned as it is, and a longer one comes
    out as the marker "[...]" alone, or as a beginning of the collapsed
    text followed by a space and the marker "[...]" (where the beginning
    ends is left open: the standard library may cut inside a chunk that is
    longer than the width). *)
Theorem truncation_lengths (s : string) (bound : Z)
    (split_chunks : string -> list string) (text : string) :
  0 <= bound ->
  let collapsed := join " " (split (rstrip (lstrip text))) in
  (len s <= bound -> short s bound = s)
  /\ (bound < len s ->
      short s bound = slice_to s bound ++ "..."
      /\ len (slice_to s bound) = bound
      /\ len (short s bound) = bound + 3)
  /\ len (short s bound) <= bound + 3
  /\ (exists shown, shorten split_chunks text 4000 = Ok shown
                    /\ len shown <= 4000)
  /\ (join "" (split_chunks collapsed) = collapsed ->
      (len collapsed <= 4000 ->
       shorten split_chunks text 4000 = Ok collapsed)
      /\ (4000 < len collapsed ->
          exists head,
            shorten split_chunks text 4000 = Ok (head ++ "[...]")
            /\ len (head ++ "[...]") <= 4000
            /\ (head = ""
                \/ exists kept dropped,
                     head = kept ++ " "
                     /\ collapsed = kept ++ dropped))).
Proof.
  intros H0 collapsed.
  assert (H5 : len (lstrip placeholder) <= 4000) by (vm_compute; discriminate).
  split; [apply short_within |].
  split; [apply short_beyond; exact H0 |].
  split; [| split].
  - destruct (Z.le_gt_cases (len s) bound) as [H | H].
    + rewrite short_within by exact H. lia.
    + destruct (short_beyond s bound H0 H) as (_ & _ & ->). lia.
  - apply shorten_within_width. exact H5.
  - intros Hcut. split; intros Hlen.
    + now apply shorten_returns_fitting_text.
    + destruct (shorten_cuts_long_text split_chunks text 4000 H5 Hcut Hlen)
        as (head & Hshown & Hhead).
      destruct (shorten_within_width split_chunks text 4000 H5)
        as (shown & Hshown' & Hbound).
      rewrite Hshown in Hshown'. injection Hshown' as <-.
      exists head. auto.
Qed.

Lemma truncation_lengths_witness :
  len (short body_of_401_characters short_default_length) = 400 + 3
  /\ shorten simple_chunks "  Explain   AI in a few words " 4000
     = Ok "Explain AI in a few words"
  /\ exists head,
       shorten simple_chunks word_of_4001_characters 4000
       = Ok (head ++ "[...]")
       /\ len (head ++ "[...]") <= 4000
       /\ (head = ""
           \/ exists kept dropped,
                head = kept ++ " "
                /\ join " " (split (rstrip (lstrip word_of_4001_characters)))
                   = kept ++ dropped).
Proof.
  split; [| split].
  - apply (truncation_lengths body_of_401_characters short_default_length
             simple_chunks "").
    + unfold short_default_length. lia.
    + vm_compute. reflexivity.
  - apply (truncation_lengths "" 400 simple_chunks
             "  Explain   AI in a few words ").
    + lia.
    + vm_compute. reflexivity.
    + vm_compute. discriminate.
  - apply (truncation_lengths "" 400 simple_chunks word_of_4001_characters).
    + lia.
    + vm_compute. reflexivity.
    + vm_compute. reflexivity.
Defined.

(** * Further properties of the two scripts *)

(** ** The Key Validator *)

Lemma exit_status_by_outcome_witness :
  exit_status
    (result (check_gemini_key.main (Some "AIzaSyExample")
               (fun _ _ => GetReturns (Response 404 "Not Found" None))))
  = 5.
Proof.
  exact (exit_status_by_outcome "AIzaSyExample"
           (fun _ _ => GetReturns (Response 404 "Not Found" None))
           ltac:(discriminate)).
Defined.

Lemma models_list_witness :
  let l := repeat (VStr "models/gemini-pro") 12 in
  let run :=
    check_gemini_key.main (Some "AIzaSyExample")
      (fun _ _ => GetReturns (Response 200 "" (Some (VDict [("models", VList l)])))) in
  List.length (entry_lines (trace run)) = Nat.min (List.length l) 10
  /\ result run = Ok 0.
Proof.
  apply (models_list_prints_min_n_10 "AIzaSyExample" ""
           [("models", VList (repeat (VStr "models/gemini-pro") 12))]).
  - discriminate.
  - reflexivity.
  - reflexivity.
  - discriminate.
  - cbn. repeat constructor; eexists; reflexivity.
Defined.

(** *** [short] *)

Lemma take_append (a b : string) :
  substring 0 (String.length a) (a ++ b) = a.
Proof.
  induction a as [|c a IH]; cbn.
  - now destruct b.
  - now rewrite IH.
Qed.

(** Truncating twice to the same bound is truncating once: the marker that
    the first call adds is cut off and added again by the second. *)
Theorem short_is_idempotent (s : string) (bound : Z) :
  0 <= bound -> short (short s bound) bound = short s bound.
Proof.
  intros H0. destruct (Z.le_gt_cases (len s) bound) as [H | H].
  - rewrite (short_within s bound H). now apply short_within.
  - destruct (short_beyond s bound H0 H) as (Hcut & Hlen & Htotal).
    rewrite Hcut at 2. unfold short at 1.
    rewrite (proj2 (Z.leb_gt _ _)) by lia. f_equal.
    rewrite Hcut. unfold slice_to at 1.
    rewrite (proj2 (Z.leb_le 0 bound) H0).
    replace (Z.to_nat bound) with (String.length (slice_to s bound))
      by (unfold len in Hlen; lia).
    apply take_append.
Qed.

Lemma short_is_idempotent_witness :
  short (short "models/gemini-1.5-pro-latest" 10) 10
  = short "models/gemini-1.5-pro-latest" 10.
Proof. apply short_is_idempotent. lia. Defined.

(** *** The list of models *)

(** A run that gets a 200 whose body maps "models" to a list: its entry
    lines and its result are those of the loop over the first ten entries. *)
Lemma models_list_run (api_key raw : string) (d : list (string * value))
    (l : list value) (requests_get : string -> Z -> get_result) :
  api_key <> "" ->
  requests_get (endpoint api_key) 10
  = GetReturns (Response 200 raw (Some (VDict d))) ->
  dict_get d "models" = VList l -> l <> [] ->
  let run := check_gemini_key.main (Some api_key) requests_get in
  stdout (trace run)
  = "Found GEMINI_API_KEY (hidden). Performing basic checks..."
      :: format_line api_key
      :: ("- Requesting models endpoint: " ++ endpoint api_key)
      :: "- HTTP status: 200"
      :: ("- Key appears valid. " ++ str_int (Z.of_nat (List.length l))
          ++ " model(s) returned:")
      :: stdout (trace (print_entries (firstn 10 l)))
  /\ entry_lines (trace run)
     = entry_lines (trace (print_entries (firstn 10 l)))
  /\ result run = match result (print_entries (firstn 10 l)) with
                  | Ok _ => Ok 0
                  | Raised e => Raised e
                  end.
Proof.
  intros Hkey Hget Hmodels Hne run. subst run.
  rewrite (main_with_credential _ _ Hkey), Hget. cbn [on_get_result].
  assert (Hsel : select_models (VDict d) = Ok (VList l)).
  { rewrite select_models_dict, Hmodels.
    destruct l; [contradiction | reflexivity]. }
  rewrite (on_response_200_object raw d _ Hsel).
  destruct (print_entries (firstn 10 l)) as [t r].
  unfold trace, result. cbn [fst snd].
  split; [reflexivity |]. split; [| reflexivity].
  assert (Hformat : startswith (format_line api_key) "  - " = false).
  { unfold format_line.
    destruct (startswith api_key "AIza"); [reflexivity |].
    destruct (startswith api_key "sk-"); reflexivity. }
  unfold entry_lines. cbn [stdout filter]. rewrite Hformat.
  change (startswith "Found GEMINI_API_KEY (hidden). Performing basic checks..."
            "  - ") with false.
  change (startswith "- HTTP status: 200" "  - ") with false.
  change (startswith ("- Requesting models endpoint: " ++ endpoint api_key)
            "  - ") with false.
  change (startswith ("- Key appears valid. "
                      ++ str_int (Z.of_nat (List.length l))
                      ++ " model(s) returned:") "  - ") with false.
  reflexivity.
Qed.

Lemma print_entries_named (ms : list value) (names : list string) :
  Forall2 (fun m s => entry_name m = VStr s) ms names ->
  print_entries ms
  = (map (fun s => Print ("  - " ++ short s 200)) names, Ok tt).
Proof.
  induction 1 as [|m s ms names Hm _ IH]; [reflexivity |].
  cbn [print_entries map]. rewrite Hm, IH. reflexivity.
Qed.

Lemma stdout_prints (lines : list string) :
  stdout (map Print lines) = lines.
Proof. induction lines as [|s l IH]; cbn; [reflexivity | now rewrite IH]. Qed.

(** When the names of the first ten entries are strings (an entry that is
    no dict gives its string form, a dict its "name", else its "model", else
    its string form), the validator prints the header with the number of
    all the entries, then one line per name among the first ten, each name
    truncated by [short] to 200 characters, and returns 0. *)
Theorem named_entries_are_listed (api_key raw : string)
    (d : list (string * value)) (l : list value) (names : list string)
    (requests_get : string -> Z -> get_result) :
  api_key <> "" ->
  requests_get (endpoint api_key) 10
  = GetReturns (Response 200 raw (Some (VDict d))) ->
  dict_get d "models" = VList l -> l <> [] ->
  Forall2 (fun m s => entry_name m = VStr s) (firstn 10 l) names ->
  let run := check_gemini_key.main (Some api_key) requests_get in
  stdout (trace run)
  = "Found GEMINI_API_KEY (hidden). Performing basic checks..."
      :: format_line api_key
      :: ("- Requesting models endpoint: " ++ endpoint api_key)
      :: "- HTTP status: 200"
      :: ("- Key appears valid. " ++ str_int (Z.of_nat (List.length l))
          ++ " model(s) returned:")
      :: map (fun s => "  - " ++ short s 200) names
  /\ result run = Ok 0.
Proof.
  intros Hkey Hget Hmodels Hne Hnames run.
  destruct (models_list_run api_key raw d l requests_get Hkey Hget Hmodels Hne)
    as (Hout & _ & Hres).
  fold run in Hout, Hres. rewrite Hout, Hres.
  rewrite (print_entries_named _ _ Hnames).
  unfold trace, result. cbn [fst snd].
  rewrite <- (map_map (fun s => "  - " ++ short s 200) Print), stdout_prints.
  split; reflexivity.
Qed.

Lemma named_entries_witness :
  let l := VStr "models/text-bison-001"
           :: VDict [("name", VStr "models/gemini-pro")]
           :: VDict [("model", VStr "models/embedding-001")]
           :: repeat (VInt 7) 9 in
  let run :=
    check_gemini_key.main (Some "AIzaSyExample")
      (fun _ _ =>
         GetReturns (Response 200 "" (Some (VDict [("models", VList l)])))) in
  stdout (trace run)
  = [ "Found GEMINI_API_KEY (hidden). Performing basic checks...";
      "- Looks like a Google API key (starts with 'AIza').";
      "- Requesting models endpoint: https://generativelanguage.googleapis.com/v1beta2/models?key=AIzaSyExample";
      "- HTTP status: 200";
      "- Key appears valid. 12 model(s) returned:";
      "  - models/text-bison-001"; "  - models/gemini-pro";
      "  - models/embedding-001";
      "  - 7"; "  - 7"; "  - 7"; "  - 7"; "  - 7"; "  - 7"; "  - 7" ]
  /\ result run = Ok 0.
Proof.
  intros l run.
  refine (named_entries_are_listed "AIzaSyExample" ""
            [("models", VList l)] l
            ["models/text-bison-001"; "models/gemini-pro";
             "models/embedding-001"; "7"; "7"; "7"; "7"; "7"; "7"; "7"]
            (fun _ _ =>
               GetReturns (Response 200 "" (Some (VDict [("models", VList l)]))))
            _ _ _ _ _).
  - discriminate.
  - reflexivity.
  - reflexivity.
  - discriminate.
  - cbn. repeat constructor.
Defined.

Lemma print_entries_until_rejected (good : list value) (bad : value)
    (rest : list value) (e : exn) :
  Forall name_is_shown good ->
  short_object (entry_name bad) 200 = Raised e ->
  result (print_entries (good ++ bad :: rest)) = Raised e
  /\ List.length (entry_lines (trace (print_entries (good ++ bad :: rest))))
     = List.length good.
Proof.
  intros Hgood Hbad.
  induction Hgood as [|m ms [shown Hm] _ (IHr & IHn)].
  - cbn [app print_entries]. rewrite Hbad. split; reflexivity.
  - cbn [app print_entries]. rewrite Hm.
    unfold entry_lines in *. unfold bind, lift, print, emit, trace, result in *.
    destruct (print_entries (ms ++ bad :: rest)) as [t r].
    cbn [fst snd] in *. subst r.
    cbn [app stdout filter fst snd]. rewrite startswith_append.
    cbn [List.length]. now rewrite IHn.
Qed.

(** When one of the first ten entries has a name that [short] rejects (a
    number, [True], a list or dict of more than 200 items), the entries
    before it are printed, the exception escapes at that entry, nothing more
    is printed and the process exits with status 1. *)
Theorem entries_before_a_rejected_name_are_printed (api_key raw : string)
    (d : list (string * value)) (l good rest : list value) (bad : value)
    (e : exn) (requests_get : string -> Z -> get_result) :
  api_key <> "" ->
  requests_get (endpoint api_key) 10
  = GetReturns (Response 200 raw (Some (VDict d))) ->
  dict_get d "models" = VList l ->
  firstn 10 l = (good ++ bad :: rest)%list ->
  Forall name_is_shown good ->
  short_object (entry_name bad) 200 = Raised e ->
  let run := check_gemini_key.main (Some api_key) requests_get in
  result run = Raised e
  /\ exit_status (result run) = 1
  /\ List.length (entry_lines (trace run)) = List.length good.
Proof.
  intros Hkey Hget Hmodels Hfirst Hgood Hbad run.
  assert (Hne : l <> []).
  { intros ->. destruct good; discriminate Hfirst. }
  destruct (models_list_run api_key raw d l requests_get Hkey Hget Hmodels Hne)
    as (_ & Hlines & Hres).
  fold run in Hlines, Hres. rewrite Hlines, Hres, Hfirst.
  destruct (print_entries_until_rejected good bad rest e Hgood Hbad)
    as [-> ->].
  repeat split.
Qed.

Lemma entries_before_a_rejected_name_witness :
  let l := [VStr "models/gemini-pro"; VDict [("name", VInt 5)];
            VStr "models/embedding-001"] in
  let run :=
    check_gemini_key.main (Some "AIzaSyExample")
      (fun _ _ =>
         GetReturns (Response 200 "" (Some (VDict [("models", VList l)])))) in
  result run = Raised (Exn TypeError "object of type 'int' has no len()")
  /\ exit_status (result run) = 1
  /\ List.length (entry_lines (trace run)) = 1%nat.
Proof.
  intros l run.
  refine (entries_before_a_rejected_name_are_printed "AIzaSyExample" ""
            [("models", VList l)] l
            [VStr "models/gemini-pro"] [VStr "models/embedding-001"]
            (VDict [("name", VInt 5)])
            (Exn TypeError "object of type 'int' has no len()")
            (fun _ _ =>
               GetReturns (Response 200 "" (Some (VDict [("models", VList l)]))))
            _ _ _ _ _ _).
  - discriminate.
  - reflexivity.
  - reflexivity.
  - reflexivity.
  - repeat constructor. eexists. reflexivity.
  - reflexivity.
Defined.

(** *** The body of a refused request *)

Lemma blank_append (a b : string) : blank (a ++ b) = blank a && blank b.
Proof.
  induction a as [|c a IH]; [reflexivity |].
  cbn. now rewrite IH, andb_assoc.
Qed.

Lemma has_linebreak_append (a b : string) :
  has_linebreak (a ++ b) = has_linebreak a || has_linebreak b.
Proof.
  induction a as [|c a IH]; [reflexivity |].
  cbn. now rewrite IH, orb_assoc.
Qed.

Lemma has_linebreak_take (n : nat) (s : string) :
  has_linebreak s = false -> has_linebreak (substring 0 n s) = false.
Proof.
  revert s. induction n as [|n IH]; intros [|c s] H; try reflexivity.
  cbn in *. apply orb_false_elim in H. destruct H as [Hc Hs].
  now rewrite Hc, IH.
Qed.

(** A text of one line is its only line. *)
Lemma splitlines_from_one_line (s cur : string) :
  has_linebreak s = false ->
  splitlines_from cur s
  = if String.eqb (cur ++ s) "" then [] else [cur ++ s].
Proof.
  revert cur. induction s as [|c s IH]; intros cur H.
  - cbn [splitlines_from]. now rewrite append_empty_r.
  - cbn in H. apply orb_false_elim in H. destruct H as [Hc Hs].
    cbn [splitlines_from].
    assert (Hcr : Ascii.eqb c "013" = false).
    { destruct (Ascii.eqb c "013") eqn:E; [| reflexivity].
      apply Ascii.eqb_eq in E. subst c. discriminate Hc. }
    rewrite Hcr, Hc, IH by exact Hs.
    now rewrite append_assoc'.
Qed.

(** A text of one line that is not blank is indented as a whole. *)
Lemma indent_one_line (text prefix : string) :
  has_linebreak text = false -> blank text = false ->
  indent text prefix = prefix ++ text.
Proof.
  intros Hline Hblank. unfold indent, splitlines.
  rewrite splitlines_from_one_line by exact Hline.
  cbn [append].
  destruct (String.eqb text "") eqn:E.
  - apply String.eqb_eq in E. subst text. discriminate Hblank.
  - cbn. now rewrite Hblank.
Qed.

(** For a status other than 200 and a body of one line that is not blank,
    the validator prints the status, its message and then the body,
    truncated by [short] to 400 characters and indented by two spaces; it
    returns 4 on 401 and 403 and 5 otherwise. *)
Theorem refused_request_prints_its_body (api_key : string) (resp : response)
    (requests_get : string -> Z -> get_result) :
  api_key <> "" ->
  requests_get (endpoint api_key) 10 = GetReturns resp ->
  status_code resp <> 200 ->
  has_linebreak (text resp) = false -> blank (text resp) = false ->
  let run := check_gemini_key.main (Some api_key) requests_get in
  let refused := (status_code resp =? 401) || (status_code resp =? 403) in
  stdout (trace run)
  = [ "Found GEMINI_API_KEY (hidden). Performing basic checks...";
      format_line api_key;
      "- Requesting models endpoint: " ++ endpoint api_key;
      "- HTTP status: " ++ str_int (status_code resp);
      if refused
      then "- Unauthorized or forbidden. The API key is invalid or lacks permissions."
      else "- Received unexpected status. Response body (truncated):";
      "  " ++ short (text resp) 400 ]
  /\ result run = Ok (if refused then 4 else 5).
Proof.
  intros Hkey Hget Hcode Hline Hblank run refused. subst run refused.
  rewrite (main_with_credential _ _ Hkey), Hget. cbn [on_get_result].
  unfold on_response.
  rewrite (proj2 (Z.eqb_neq _ _) Hcode).
  assert (Hshown : indent (short (text resp) short_default_length) "  "
                   = "  " ++ short (text resp) 400).
  { apply indent_one_line; unfold short, short_default_length;
      destruct (len (text resp) <=? 400); try assumption.
    - rewrite has_linebreak_append. unfold slice_to.
      change (0 <=? 400) with true. cbv iota.
      now rewrite has_linebreak_take.
    - rewrite blank_append. apply andb_false_r. }
  rewrite Hshown.
  destruct ((status_code resp =? 401) || (status_code resp =? 403));
    split; reflexivity.
Qed.

Lemma refused_request_witness :
  let run :=
    check_gemini_key.main (Some "AIzaSyExample")
      (fun _ _ => GetReturns (Response 403 "API key not valid." None)) in
  stdout (trace run)
  = [ "Found GEMINI_API_KEY (hidden). Performing basic checks...";
      "- Looks like a Google API key (starts with 'AIza').";
      "- Requesting models endpoint: https://generativelanguage.googleapis.com/v1beta2/models?key=AIzaSyExample";
      "- HTTP status: 403";
      "- Unauthorized or forbidden. The API key is invalid or lacks permissions.";
      "  API key not valid." ]
  /\ result run = Ok 4.
Proof.
  intros run.
  refine (refused_request_prints_its_body "AIzaSyExample"
            (Response 403 "API key not valid." None)
            (fun _ _ => GetReturns (Response 403 "API key not valid." None))
            _ _ _ _ _).
  - discriminate.
  - reflexivity.
  - discriminate.
  - reflexivity.
  - reflexivity.
Defined.

(** ** The Prompt Runner *)

Lemma prompt_runner_exit_codes_witness :
  let run :=
    main simple_chunks (Some "AIzaSyExample") "gemini-2.5-flash"
      "Explain AI in a few words" None
      (Some (fun _ _ _ => PostRaises (Exn RequestException "timed out"))) in
  result run = Ok 0
  \/ (result run = Ok 3
      /\ exists exc, PostRaises (Exn RequestException "timed out")
                     = PostRaises exc).
Proof.
  intros run.
  refine (prompt_runner_exit_codes simple_chunks "AIzaSyExample"
            "gemini-2.5-flash" "Explain AI in a few words" None
            (Some (fun _ _ _ => PostRaises (Exn RequestException "timed out")))
            _).
  discriminate.
Defined.

(** *** The SDK path *)

Lemma stdout_app (a b : list event) :
  stdout (a ++ b) = (stdout a ++ stdout b)%list.
Proof.
  induction a as [|ev a IH]; [reflexivity |].
  destruct ev; cbn; now rewrite IH.
Qed.

(** What the SDK path does, whatever the library is: it returns, after at
    most one generation call, without printing or posting, and with a
    reason it gives no result. *)
Lemma sdk_path_trace (sdk : option genai) (model prompt api_key : string) :
  exists t res err,
    try_genai_library sdk model prompt api_key = (t, Ok (res, err))
    /\ stdout t = []
    /\ filter is_post t = []
    /\ (List.length (filter is_generation t) <= 1)%nat
    /\ (err <> None -> res = none).
Proof.
  unfold try_genai_library. destruct sdk as [[cl tx]|]; cbn.
  - destruct cl as [[[[[[gc|]]|]]|e]|]; cbn;
      try destruct (gc model prompt); cbn;
      try (destruct tx as [[[tc|]]|]; cbn; try destruct (tc model prompt); cbn);
      do 3 eexists; (split; [reflexivity |]); cbn;
      repeat split; auto; try lia; try (intros H; now destruct H).
  - do 3 eexists. split; [reflexivity |]. cbn. repeat split; auto.
Qed.

(** Whatever the library is and raises, [try_genai_library] returns: it
    makes at most one generation call, prints nothing and posts nothing;
    when it gives a reason it gives no result; and the credential it is
    passed has no part in what it does. *)
Theorem sdk_path_is_contained (sdk : option genai)
    (model prompt api_key other_key : string) :
  try_genai_library sdk model prompt api_key
  = try_genai_library sdk model prompt other_key
  /\ exists t res err,
       try_genai_library sdk model prompt api_key = (t, Ok (res, err))
       /\ stdout t = []
       /\ filter is_post t = []
       /\ (List.length (filter is_generation t) <= 1)%nat
       /\ (err <> None -> res = none).
Proof. split; [reflexivity | apply sdk_path_trace]. Qed.

(** The two call shapes are tried in order.  When the client has a
    generate-content call, that call is made and [genai.Text.generate] is
    not, even when the call raises; its result goes through [extract].
    Only when there is no such call (and [genai.Client()] did not raise) is
    [genai.Text.generate] called, and its result is returned as it is. *)
Theorem call_shapes_are_tried_in_order (g : genai) (call : generate_call)
    (model prompt api_key : string) :
  (client_call g = Some call ->
   try_genai_library (Some g) model prompt api_key
   = ([SdkClient; SdkGenerateContent model prompt],
      Ok (match call model prompt with
          | Ok resp => (extract resp, None)
          | Raised e =>
              (none, Some ("google-genai call failed: " ++ exn_str e))
          end)))
  /\ (client_call g = None ->
      (forall e, Client g <> Some (Raised e)) ->
      text_call g = Some call ->
      try_genai_library (Some g) model prompt api_key
      = (((match Client g with Some _ => [SdkClient] | None => [] end)
            ++ [SdkTextGenerate model prompt])%list,
         Ok (match call model prompt with
             | Ok resp => (resp, None)
             | Raised e =>
                 (none, Some ("google-genai call failed: " ++ exn_str e))
             end))).
Proof.
  unfold try_genai_library, client_call, text_call. split.
  - intros Hc.
    destruct (Client g) as [[[[[[gc|]]|]]|e']|]; try discriminate Hc.
    injection Hc as ->. cbn. destruct (call model prompt); reflexivity.
  - intros Hc Hn Ht.
    destruct (Text g) as [[[tc|]]|]; try discriminate Ht.
    injection Ht as ->.
    destruct (Client g) as [[[[[[gc|]]|]]|e']|]; try discriminate Hc;
      try (now destruct (Hn e'));
      cbn; destruct (call model prompt); reflexivity.
Qed.

Lemma call_shapes_witness :
  try_genai_library
    (Some (Genai
             (Some (Ok (ClientObject
                          (Some (ModelsNamespace
                                   (Some (fun _ _ =>
                                            Raised (Exn OtherException
                                                      "quota exceeded"))))))))
             (Some (TextNamespace
                      (Some (fun _ _ => Ok (Plain (VStr "never asked"))))))))
    "gemini-2.5-flash" "Explain AI in a few words" "AIzaSyExample"
  = ([SdkClient;
      SdkGenerateContent "gemini-2.5-flash" "Explain AI in a few words"],
     Ok (none, Some "google-genai call failed: quota exceeded")).
Proof.
  refine (proj1 (call_shapes_are_tried_in_order
                   (Genai
                      (Some (Ok (ClientObject
                                   (Some (ModelsNamespace
                                            (Some (fun _ _ =>
                                                     Raised (Exn OtherException
                                                               "quota exceeded"))))))))
                      (Some (TextNamespace
                               (Some (fun _ _ => Ok (Plain (VStr "never asked")))))))
                   (fun _ _ => Raised (Exn OtherException "quota exceeded"))
                   "gemini-2.5-flash" "Explain AI in a few words"
                   "AIzaSyExample") _).
  reflexivity.
Defined.

(** *** The two ways a run ends *)

(** The run when the SDK path gave a result. *)
Lemma main_takes_sdk_result (split_chunks : string -> list string)
    (api_key model prompt shown : string) (sdk : option genai)
    (requests : option (string -> value -> Z -> post_result))
    (t : list event) (res : pyobj) :
  api_key <> "" ->
  try_genai_library sdk model prompt api_key = (t, Ok (res, None)) ->
  is_none res = false ->
  shorten split_chunks (str_of res) 4000 = Ok shown ->
  main split_chunks (Some api_key) model prompt sdk requests
  = ((Print ("Using model: " ++ model) :: t)
       ++ [Print "--- Result (google-genai library) ---"; Print shown],
     Ok 0)%list.
Proof.
  intros Hkey Htry Hres Hshown.
  destruct api_key as [|c k]; [contradiction |].
  unfold main. rewrite Htry.
  cbn -[shorten str_of]. rewrite Hres.
  cbn -[shorten str_of]. rewrite Hshown. cbn.
  rewrite ?app_nil_r. reflexivity.
Qed.

(** The run when the SDK path gave no result, or a reason. *)
Lemma main_falls_back (split_chunks : string -> list string)
    (api_key model prompt : string) (sdk : option genai)
    (requests : option (string -> value -> Z -> post_result))
    (t : list event) (res : pyobj) (err : option string) :
  api_key <> "" ->
  try_genai_library sdk model prompt api_key = (t, Ok (res, err)) ->
  (match err with None => true | Some _ => false end) && negb (is_none res)
  = false ->
  let not_used :=
    Print ("google-genai not used: " ++ str_err err
           ++ ". Falling back to REST endpoint...") in
  let start := (Print ("Using model: " ++ model) :: (t ++ [not_used])%list) in
  main split_chunks (Some api_key) model prompt sdk requests
  = match requests with
    | None =>
        (start ++ [Print "REST request failed: No module named 'requests'"],
         Ok 3)%list
    | Some requests_post =>
        let post := HttpPost (url model api_key) (payload prompt) 20 in
        match requests_post (url model api_key) (payload prompt) 20 with
        | PostRaises exc =>
            let failed := Print ("REST request failed: " ++ exn_str exc) in
            (start ++ [post; failed], Ok 3)%list
        | PostReturns resp =>
            match shorten split_chunks
                    (str (match json resp with
                          | Some data => data
                          | None => VStr (text resp)
                          end)) 4000 with
            | Ok shown =>
                (start ++ [post; Print "--- Result (REST fallback) ---";
                           Print shown],
                 Ok 0)%list
            | Raised e =>
                let failed := Print ("REST request failed: " ++ exn_str e) in
                (start ++ [post; Print "--- Result (REST fallback) ---";
                           failed],
                 Ok 3)%list
            end
        end
    end.
Proof.
  intros Hkey Htry Hnot not_used start. subst start not_used.
  destruct api_key as [|c k]; [contradiction |].
  unfold main. rewrite Htry.
  cbn -[shorten str fallback_rest]. rewrite Hnot.
  unfold fallback_rest.
  destruct requests as [requests_post |].
  - destruct (requests_post _ _ _) as [exc | resp].
    + cbn. rewrite <- ?app_assoc, ?app_nil_r. reflexivity.
    + destruct (json resp) as [data|]; cbn -[shorten str];
        destruct (shorten split_chunks _ 4000); cbn;
        rewrite <- ?app_assoc, ?app_nil_r; reflexivity.
  - cbn. rewrite <- ?app_assoc, ?app_nil_r. reflexivity.
Qed.

(** When the SDK path gives a result that is not [None], the run prints it
    and returns 0 without calling [fallback_rest]: no POST is sent. *)
Theorem sdk_result_skips_the_fallback (split_chunks : string -> list string)
    (api_key model prompt : string) (sdk : option genai)
    (requests : option (string -> value -> Z -> post_result))
    (t : list event) (res : pyobj) :
  api_key <> "" ->
  try_genai_library sdk model prompt api_key = (t, Ok (res, None)) ->
  is_none res = false ->
  let run := main split_chunks (Some api_key) model prompt sdk requests in
  exists shown,
    shorten split_chunks (str_of res) 4000 = Ok shown
    /\ stdout (trace run)
       = [ "Using model: " ++ model;
           "--- Result (google-genai library) ---"; shown ]
    /\ filter is_post (trace run) = []
    /\ result run = Ok 0.
Proof.
  intros Hkey Htry Hres run. subst run.
  destruct (shorten_4000_returns split_chunks (str_of res)) as [shown Hshown].
  exists shown. split; [exact Hshown |].
  rewrite (main_takes_sdk_result split_chunks api_key model prompt shown
             sdk requests t res Hkey Htry Hres Hshown).
  destruct (sdk_path_trace sdk model prompt api_key)
    as (t' & res' & err' & Htry' & Hout & Hpost & _).
  rewrite Htry in Htry'. injection Htry' as <- _ _.
  unfold trace, result. cbn [fst snd app stdout filter is_post].
  rewrite stdout_app, filter_app, Hout, Hpost. repeat split.
Qed.

Lemma sdk_result_witness :
  let sdk :=
    Some (Genai None
            (Some (TextNamespace
                     (Some (fun _ _ =>
                              Ok (Plain (VStr "AI  finds patterns in data."))))))) in
  let run :=
    main simple_chunks (Some "AIzaSyExample") "gemini-2.5-flash"
      "Explain AI in a few words" sdk None in
  exists shown,
    shorten simple_chunks "AI  finds patterns in data." 4000 = Ok shown
    /\ stdout (trace run)
       = [ "Using model: gemini-2.5-flash";
           "--- Result (google-genai library) ---"; shown ]
    /\ filter is_post (trace run) = []
    /\ result run = Ok 0.
Proof.
  intros sdk run.
  refine (sdk_result_skips_the_fallback simple_chunks "AIzaSyExample"
            "gemini-2.5-flash" "Explain AI in a few words" sdk None
            [SdkTextGenerate "gemini-2.5-flash" "Explain AI in a few words"]
            (Plain (VStr "AI  finds patterns in data.")) _ _ _).
  - discriminate.
  - reflexivity.
  - reflexivity.
Defined.

(** When the SDK path gives [None] and no reason (a call returned [None],
    or a response whose [text] is falsy and whose [response] is [None]), the
    run goes to the fallback all the same, and the reason it prints is the
    word "None". *)
Theorem none_result_falls_back (split_chunks : string -> list string)
    (api_key model prompt : string) (sdk : option genai)
    (requests_post : string -> value -> Z -> post_result)
    (t : list event) :
  api_key <> "" ->
  try_genai_library sdk model prompt api_key = (t, Ok (none, None)) ->
  let run :=
    main split_chunks (Some api_key) model prompt sdk (Some requests_post) in
  nth_error (stdout (trace run)) 1
  = Some "google-genai not used: None. Falling back to REST endpoint..."
  /\ filter is_post (trace run)
     = [HttpPost (url model api_key) (payload prompt) 20].
Proof.
  intros Hkey Htry run. subst run.
  rewrite (main_falls_back split_chunks api_key model prompt sdk
             (Some requests_post) t none None Hkey Htry eq_refl).
  destruct (sdk_path_trace sdk model prompt api_key)
    as (t' & res' & err' & Htry' & Hout & Hpost & _).
  rewrite Htry in Htry'. injection Htry' as <- _ _.
  cbv zeta.
  destruct (requests_post _ _ _) as [exc | resp];
    [| destruct (shorten split_chunks _ 4000)];
    unfold trace; cbn [fst app stdout filter is_post];
    rewrite !stdout_app, !filter_app, Hout, Hpost; split; reflexivity.
Qed.

Lemma none_result_witness :
  let sdk :=
    Some (Genai None (Some (TextNamespace (Some (fun _ _ => Ok none))))) in
  let run :=
    main simple_chunks (Some "AIzaSyExample") "gemini-2.5-flash"
      "Explain AI in a few words" sdk
      (Some (fun _ _ _ => PostReturns (Response 200 "ok" None))) in
  nth_error (stdout (trace run)) 1
  = Some "google-genai not used: None. Falling back to REST endpoint..."
  /\ filter is_post (trace run)
     = [HttpPost (url "gemini-2.5-flash" "AIzaSyExample")
          (payload "Explain AI in a few words") 20].
Proof.
  intros sdk run.
  refine (none_result_falls_back simple_chunks "AIzaSyExample"
            "gemini-2.5-flash" "Explain AI in a few words" sdk
            (fun _ _ _ => PostReturns (Response 200 "ok" None))
            [SdkTextGenerate "gemini-2.5-flash" "Explain AI in a few words"]
            _ _).
  - discriminate.
  - reflexivity.
Defined.

(** *** What the output holds *)



Lemma last_two {A} (l : list A) (a b d : A) :
  last (l ++ [a; b]) d = b.
Proof.
  change [a; b] with ([a] ++ [b])%list. rewrite app_assoc. apply last_last.
Qed.

(** A run that returns 0 ends its output with the result, and that last
    line is at most 4000 characters long, whichever path gave the result. *)
Theorem printed_result_is_within_4000 (split_chunks : string -> list string)
    (api_key model prompt : string) (sdk : option genai)
    (requests : option (string -> value -> Z -> post_result)) :
  api_key <> "" ->
  let run := main split_chunks (Some api_key) model prompt sdk requests in
  result run = Ok 0 ->
  len (last (stdout (trace run)) "") <= 4000.
Proof.
  intros Hkey run. subst run.
  assert (H5 : len (lstrip placeholder) <= 4000)
    by (vm_compute; discriminate).
  destruct (sdk_path_trace sdk model prompt api_key)
    as (t & res & err & Htry & _).
  destruct ((match err with None => true | Some _ => false end)
            && negb (is_none res)) eqn:Etaken.
  - destruct err; [discriminate Etaken |].
    assert (Hres : is_none res = false) by (now destruct (is_none res)).
    destruct (shorten_within_width split_chunks (str_of res) 4000 H5)
      as (shown & Hs & Hlen).
    rewrite (main_takes_sdk_result split_chunks api_key model prompt shown
               sdk requests t res Hkey Htry Hres Hs).
    intros _. unfold trace. cbn [fst].
    rewrite stdout_app. cbn [stdout]. now rewrite last_two.
  - rewrite (main_falls_back split_chunks api_key model prompt sdk requests
               t res err Hkey Htry Etaken).
    cbv zeta.
    destruct requests as [requests_post|]; [| discriminate].
    destruct (requests_post _ _ _) as [exc | resp]; [discriminate |].
    destruct (shorten_within_width split_chunks
                (str (match json resp with
                      | Some data => data
                      | None => VStr (text resp)
                      end)) 4000 H5) as (shown & Hs & Hlen).
    rewrite Hs. intros _. unfold trace. cbn [fst].
    rewrite stdout_app. cbn [stdout]. now rewrite last_two.
Qed.

Lemma printed_result_witness :
  len (last (stdout
               (trace (main simple_chunks (Some "AIzaSyExample")
                         "gemini-2.5-flash" "Explain AI in a few words" None
                         (Some (fun _ _ _ =>
                                  PostReturns
                                    (Response 200 "" (Some (VStr word_of_4001_characters))))))))
          "")
  <= 4000.
Proof.
  refine (printed_result_is_within_4000 simple_chunks "AIzaSyExample"
            "gemini-2.5-flash" "Explain AI in a few words" None
            (Some (fun _ _ _ =>
                     PostReturns
                       (Response 200 "" (Some (VStr word_of_4001_characters)))))
            _ _).
  - discriminate.
  - vm_compute. reflexivity.
Defined.
